(** * Docuscribe MCP server: the two tools of [main.py]

    A shallow embedding of [list_all_docs] and [fetch_doc_content] and the
    properties of their input normalisation, mode selection, validation step
    and response shaping.

    Python values that come out of [resp.json()] are JSON values; the
    operations the tools apply to them ([.get], [in], item assignment,
    iteration, [==] against a [str]) are modelled with the exceptions Python
    raises when the value has the wrong shape.  The HTTP client is a request
    log: every [client.get(url)] appends the url and receives the backend's
    answer, or the exception the client raises instead. *)

From Stdlib Require Import ZArith List String Ascii Bool Lia.
From Stdlib Require Import DecimalString DecimalZ DecimalPos.
Import ListNotations.
Open Scope string_scope.
Open Scope Z_scope.

(** ** JSON values and the Python operations on them *)

Module Py.

(** What [json.loads] / [resp.json()] can produce.  A [dict] keeps its
    insertion order, so an object is an association list; [.get] and item
    assignment address the first entry with the key.  Floats are never
    inspected by the tools and carry their literal only. *)
#[warnings="-register-all"]
Inductive json : Type :=
| JNull
| JBool (b : bool)
| JInt (z : Z)
| JFloat (literal : string)
| JString (s : string)
| JArray (items : list json)
| JObject (entries : list (string * json)).

(** The exceptions the tools can meet.  A subclass counts as its builtin
    base ([json.JSONDecodeError] and [UnicodeDecodeError] are
    [ValueError]s); [RequestError] is [httpx.RequestError] with its
    subclasses ([ConnectError], the timeouts, ...); [OtherError] is any
    other class of [Exception], by name. *)
Inductive exn : Type :=
| ValueError
| TypeError
| AttributeError
| RecursionError
| RequestError
| OtherError (class : string).

(** The outcome of evaluating a Python expression or call. *)
Inductive outcome (A : Type) : Type :=
| Return (a : A)
| Raise (e : exn).
Arguments Return {A} a.
Arguments Raise {A} e.

Definition bind {A B} (c : outcome A) (k : A -> outcome B) : outcome B :=
  match c with
  | Return a => k a
  | Raise e => Raise e
  end.

(** [try: c  except <handled>: h] *)
Definition try_except {A} (c : outcome A) (handled : exn -> bool) (h : outcome A)
  : outcome A :=
  match c with
  | Return a => Return a
  | Raise e => if handled e then h else Raise e
  end.

Declare Scope py_scope.
Delimit Scope py_scope with py.
Notation "'let*' x ':=' c 'in' k" := (bind c (fun x => k))
  (at level 10, x name, c at level 100, k at level 200) : py_scope.
Open Scope py_scope.

(** [except Exception]: every exception is handled. *)
Definition any_Exception (_ : exn) : bool := true.

(** *** dict primitives *)

Fixpoint dict_get (k : string) (d : list (string * json)) : option json :=
  match d with
  | [] => None
  | (k', v) :: rest => if String.eqb k' k then Some v else dict_get k rest
  end.

(** [d[k] = v]: an existing key keeps its position, a new one goes last. *)
Fixpoint dict_set (k : string) (v : json) (d : list (string * json))
  : list (string * json) :=
  match d with
  | [] => [(k, v)]
  | (k', v') :: rest =>
      if String.eqb k' k then (k, v) :: rest else (k', v') :: dict_set k v rest
  end.

Definition dict_mem (k : string) (d : list (string * json)) : bool :=
  match dict_get k d with Some _ => true | None => false end.

(** *** str primitives *)

(** [p in s] for two strings: [p] occurs in [s]. *)
Fixpoint str_contains (p s : string) : bool :=
  String.prefix p s
  || match s with
     | EmptyString => false
     | String _ rest => str_contains p rest
     end.

(** The characters of a string, each as a string of length one. *)
Fixpoint str_chars (s : string) : list json :=
  match s with
  | EmptyString => []
  | String c rest => JString (String c EmptyString) :: str_chars rest
  end.

(** The decimal numeral of an integer. *)
Definition decimal (n : Z) : string := NilZero.string_of_int (Z.to_int n).

(** CPython converts an [int] to a decimal [str] only up to
    [sys.get_int_max_str_digits()] digits, 4300 unless the interpreter is
    configured otherwise: an [int] has more digits than that exactly when
    its absolute value reaches [10 ^ 4300]. *)
Definition int_max_str_digits : Z := 4300.

Definition int_str_bound : Z := Eval vm_compute in (10 ^ int_max_str_digits).

(** [str(n)] and the [{n}] of an f-string, for an [int]: the numeral, or
    [ValueError] ("Exceeds the limit (4300 digits) for integer string
    conversion"). *)
Definition str_of_int (n : Z) : outcome string :=
  if Z.abs n <? int_str_bound then Return (decimal n) else Raise ValueError.

(** *** Operations on an arbitrary value *)

(** [v == s] where [s] is a [str]: true only for the same string. *)
Definition eq_str (v : json) (s : string) : bool :=
  match v with
  | JString t => String.eqb t s
  | _ => false
  end.

(** [v.get(k, default)]: only a dict has [.get]. *)
Definition get (v : json) (k : string) (default : json) : outcome json :=
  match v with
  | JObject d =>
      match dict_get k d with
      | Some x => Return x
      | None => Return default
      end
  | _ => Raise AttributeError
  end.

(** [v[k] = x] with a [str] key: a dict takes it; a list wants integer
    indices and everything else supports no item assignment. *)
Definition setitem (v : json) (k : string) (x : json) : outcome json :=
  match v with
  | JObject d => Return (JObject (dict_set k x d))
  | _ => Raise TypeError
  end.

(** [k in v] with a [str] on the left: key membership for a dict, element
    membership for a list, substring for a str; the other values are not
    containers. *)
Definition contains (v : json) (k : string) : outcome bool :=
  match v with
  | JObject d => Return (dict_mem k d)
  | JArray items => Return (existsb (fun x => eq_str x k) items)
  | JString s => Return (str_contains k s)
  | _ => Raise TypeError
  end.

(** [for d in v]: the elements of a list, the keys of a dict, the characters
    of a str; the other values are not iterable. *)
Definition iter (v : json) : outcome (list json) :=
  match v with
  | JArray items => Return items
  | JObject d => Return (map (fun kv => JString (fst kv)) d)
  | JString s => Return (str_chars s)
  | _ => Raise TypeError
  end.

(** *** JSON text *)

(** A [str] handed to or produced by the [json] module.  [json.dumps] and
    [json.loads] are library code: a text is identified with the value it
    denotes ([ensure_ascii] and [indent] change the layout only), and
    [NotJson] stands for any text that is not a JSON document.  The tools
    hand [json.dumps] either a small dict of their own or a value that
    [resp.json()] has decoded; it is taken to serialise both. *)
Inductive text : Type :=
| Dumps (v : json)
| NotJson (raw : string).

Definition loads (t : text) : outcome json :=
  match t with
  | Dumps v => Return v
  | NotJson _ => Raise ValueError
  end.

End Py.
Import Py.
Open Scope py_scope.

(** A document descriptor as the backend lists it: an object, with [id],
    [name] and [hashtags] among its entries. *)
Definition document : Type := list (string * json).

(** ** The HTTP client *)

(** What the tools read of an [httpx.Response]: the status code, and what
    [resp.json()] does on the body: it returns the decoded value, raises
    [ValueError] on a body that is not JSON (or holds an integer literal
    beyond the conversion limit), or raises something else, such as
    [RecursionError] on a body nested too deeply. *)
Record response : Type := mkResponse {
  status_code : Z;
  json_body : outcome json
}.

Definition resp_json (r : response) : outcome json := json_body r.

(** Every url handed to [client.get] so far, oldest first. *)
Definition log := list string.

(** A computation that talks to the backend: it starts from the requests
    already made and ends with an outcome and the extended log. *)
Definition io (A : Type) : Type := log -> outcome A * log.

Definition ret {A} (a : A) : io A := fun h => (Return a, h).

Definition lift {A} (c : outcome A) : io A := fun h => (c, h).

Definition iobind {A B} (c : io A) (k : A -> io B) : io B :=
  fun h =>
    match c h with
    | (Return a, h') => k a h'
    | (Raise e, h') => (Raise e, h')
    end.

Declare Scope io_scope.
Delimit Scope io_scope with io.
Notation "x <- c ;; k" := (iobind c (fun x => k))
  (at level 61, c at next level, right associativity) : io_scope.
Open Scope io_scope.

(** ** The tools of [main.py] *)

Module Main.

Section Tools.

(** Module-level configuration: [LIST_DOCS_URL] and [BASE_FETCH_URL], the two
    endpoints derived from [SERVER_BACKEND_URL] when the module is loaded. *)
Variable LIST_DOCS_URL : string.
Variable BASE_FETCH_URL : string.

(** The world outside: what [client.get(url)] comes back with, a response
    or an exception of the client (no connection, a timeout, a url it
    refuses).  It may depend on the requests made before. *)
Variable backend : log -> string -> outcome response.

(** [await client.get(url)]: neither tool wraps it in a [try]. *)
Definition client_get (url : string) : io response :=
  fun h => (backend h url, (h ++ [url])%list).

(** ** [list_all_docs] (main.py, lines 20-89) *)

(** Lines 64-70: normalise and clamp the inputs. *)
Definition clamp_limit (limit : Z) : Z :=
  let limit := if limit <? 1 then 1 else limit in
  let limit := if limit >? 1000 then 1000 else limit in
  limit.

Definition clamp_offset (offset : Z) : Z :=
  if offset <? 0 then 0 else offset.

(** Line 72: the f-string formats [limit], then [offset]. *)
Definition list_docs_url (limit offset : Z) : outcome string :=
  let* limit := str_of_int limit in
  let* offset := str_of_int offset in
  Return (LIST_DOCS_URL ++ "?limit=" ++ limit ++ "&offset=" ++ offset).

Definition list_failed (status : Z) : json :=
  JObject [("error", JString "list_all_docs failed"); ("status", JInt status)].

Definition list_undecodable : json :=
  JObject [("error", JString "Failed to decode JSON from list_all_docs")].

Definition request_echo (limit offset : Z) : json :=
  JObject [("limit", JInt limit); ("offset", JInt offset)].

Definition list_all_docs (limit offset : Z) : io text :=
  let limit := clamp_limit limit in
  let offset := clamp_offset offset in
  url <- lift (list_docs_url limit offset) ;;
  resp <- client_get url ;;
  if negb (status_code resp =? 200) then
    ret (Dumps (list_failed (status_code resp)))
  else
    match resp_json resp with
    | Raise ValueError => ret (Dumps list_undecodable)
    | Raise e => lift (Raise e)
    | Return data =>
        data <- lift (setitem data "_request" (request_echo limit offset)) ;;
        ret (Dumps data)
    end.

(** ** [fetch_doc_content] (main.py, lines 93-221) *)

(** Lines 159-160: the body of the [try]. *)
Definition parse_catalog (docs_raw : text) : outcome json :=
  let* docs_data := loads docs_raw in
  get docs_data "documents" (JArray []).

(** Lines 158-162: the [documents] read out of the catalog text; whatever
    is raised inside the [try] leaves the empty list. *)
Definition catalog_documents (docs_raw : text) : outcome json :=
  try_except (parse_catalog docs_raw) any_Exception (Return (JArray [])).

(** Line 163: [any(d.get("id") == doc_uid for d in documents)].  The
    generator is consumed left to right and [any] stops at the first hit. *)
Fixpoint any_id_eq (doc_uid : string) (ds : list json) : outcome bool :=
  match ds with
  | [] => Return false
  | d :: rest =>
      let* id := get d "id" JNull in
      if eq_str id doc_uid then Return true else any_id_eq doc_uid rest
  end.

Definition any_document (doc_uid : string) (documents : json) : outcome bool :=
  let* ds := iter documents in
  any_id_eq doc_uid ds.

Definition not_found (doc_uid : string) : json :=
  JObject [("error", JString ("Document '" ++ doc_uid ++ "' not found"))].

(** [if ranges:] on an [Optional[str]]: [None] and the empty string are
    false. *)
Definition truthy (ranges : option string) : bool :=
  match ranges with
  | None => false
  | Some EmptyString => false
  | Some (String _ _) => true
  end.

Definition is_not_None {A} (x : option A) : bool :=
  match x with Some _ => true | None => false end.

Definition or_default {A} (x : option A) (d : A) : A :=
  match x with Some a => a | None => d end.

(** Lines 176-179 and 180-185. *)
Definition clamp_start (start : option Z) : Z :=
  let start := or_default start 0 in
  let start := if start <? 0 then 0 else start in
  start.

Definition clamp_max_length (max_length : option Z) : Z :=
  let max_length := or_default max_length 10000 in
  let max_length := if max_length <? 1 then 1 else max_length in
  let max_length := if max_length >? 50000 then 50000 else max_length in
  max_length.

(** Lines 169-188: the list [params].  Line 186 formats [start] and line
    187 [max_length], each after both have been clamped. *)
Definition build_params (start max_length : option Z) (ranges : option string)
  : outcome (list string) :=
  if truthy ranges then
    Return ["ranges=" ++ or_default ranges ""]
  else if is_not_None start || is_not_None max_length then
    let start := clamp_start start in
    let max_length := clamp_max_length max_length in
    let* start := str_of_int start in
    let* max_length := str_of_int max_length in
    Return ["start=" ++ start; "max_length=" ++ max_length]
  else
    Return [].

(** Line 190. *)
Definition build_query (params : list string) : string :=
  match params with
  | [] => ""
  | _ => "?" ++ String.concat "&" params
  end.

(** Lines 169-191. *)
Definition fetch_url (doc_uid : string) (start max_length : option Z)
    (ranges : option string) : outcome string :=
  let* params := build_params start max_length ranges in
  Return (BASE_FETCH_URL ++ "/" ++ doc_uid ++ build_query params).

Definition fetch_failed (status : Z) : json :=
  JObject [("error", JString "fetch_doc_content failed"); ("status", JInt status)].

Definition fetch_undecodable : json :=
  JObject [("error", JString "Failed to decode JSON from fetch_doc_content")].

(** Lines 208-219: [document], [meta] and the two convenience keys. *)
Definition surface (key : string) (meta : json) (result : list (string * json))
  : outcome (list (string * json)) :=
  let* present := contains meta key in
  if present then
    let* v := get meta key JNull in
    Return (dict_set key v result)
  else
    Return result.

Definition shape_result (data : json) : outcome json :=
  let* document := get data "document" (JObject []) in
  let* meta := get data "meta" (JObject []) in
  let result := [("document", document); ("meta", meta)] in
  let* result := surface "has_more" meta result in
  let* result := surface "next_start" meta result in
  Return (JObject result).

(** Lines 158-163: is [doc_uid] the id of a document of the catalog text? *)
Definition document_exists (doc_uid : string) (docs_raw : text) : outcome bool :=
  let* documents := catalog_documents docs_raw in
  any_document doc_uid documents.

(** Lines 168-221: the request to the content endpoint and its answer. *)
Definition fetch_content (doc_uid : string) (start max_length : option Z)
    (ranges : option string) : io text :=
  url <- lift (fetch_url doc_uid start max_length ranges) ;;
  resp <- client_get url ;;
  if negb (status_code resp =? 200) then
    ret (Dumps (fetch_failed (status_code resp)))
  else
    match resp_json resp with
    | Raise ValueError => ret (Dumps fetch_undecodable)
    | Raise e => lift (Raise e)
    | Return data =>
        result <- lift (shape_result data) ;;
        ret (Dumps result)
    end.

(** Lines 158-221: the body once [docs_raw] is bound. *)
Definition fetch_with_catalog (docs_raw : text) (doc_uid : string)
    (start max_length : option Z) (ranges : option string) : io text :=
  found <- lift (document_exists doc_uid docs_raw) ;;
  if negb found then
    ret (Dumps (not_found doc_uid))
  else
    fetch_content doc_uid start max_length ranges.

Definition fetch_doc_content (doc_uid : string) (start max_length : option Z)
    (ranges : option string) : io text :=
  docs_raw <- list_all_docs 1000 0 ;;
  fetch_with_catalog docs_raw doc_uid start max_length ranges.

End Tools.

End Main.
Import Main.

(** ** Vocabulary of the properties *)

Section Vocabulary.

Variable LIST_DOCS_URL : string.
Variable backend : log -> string -> outcome response.

(** The request of line 157, [list_all_docs(limit=1000, offset=0)]. *)
Definition catalog_request : string :=
  LIST_DOCS_URL ++ "?limit=1000&offset=0".

(** The validation step of a call that starts at log [h] finds [doc_uid]:
    the listing call of line 157 returns a text and lines 158-163 find the
    id in it. *)
Definition validated (doc_uid : string) (h : log) : Prop :=
  exists docs_raw,
    fst (list_all_docs LIST_DOCS_URL backend 1000 0 h) = Return docs_raw
    /\ document_exists doc_uid docs_raw = Return true.

(** The [documents] that the validation step of a call that starts at [h]
    goes on to iterate over: lines 157-162 run on the backend's answer. *)
Definition fetched_documents (h : log) : outcome json :=
  let* docs_raw := fst (list_all_docs LIST_DOCS_URL backend 1000 0 h) in
  catalog_documents docs_raw.

End Vocabulary.

(** [d.get("id") == doc_uid] for a document [d]. *)
Definition has_id (doc_uid : string) (d : document) : bool :=
  match dict_get "id" d with
  | Some id => eq_str id doc_uid
  | None => false
  end.

(** ** Sample backends *)

Module Sample.

Definition LIST_DOCS_URL : string := "http://localhost:9002/api/list_all_docs".
Definition BASE_FETCH_URL : string := "http://localhost:9002/api/fetch_doc_content".

Definition descriptor (id name : string) : document :=
  [("id", JString id); ("name", JString name); ("hashtags", JArray [])].

Definition documents : list document :=
  [descriptor "abc123" "Guide"; descriptor "def456" "Manual"].

Definition catalog : json :=
  JObject [("documents", JArray (map JObject documents))].

(** A catalog of 1001 documents; the last one is the only one called
    [late]. *)
Definition long_catalog : list document :=
  (repeat (descriptor "filler" "Filler") 1000 ++ [descriptor "late" "Late"])%list.

Definition first_page : json :=
  JObject [("documents", JArray (map JObject (firstn 1000 long_catalog)))].

Definition content : json :=
  JObject [("document", JObject [("text", JString "hello")]);
           ("meta", JObject [("has_more", JBool true); ("next_start", JInt 500)])].

(** Answers the listing endpoint with [listing] and every other url with
    [other]. *)
Definition serve (listing other : response) : log -> string -> outcome response :=
  fun _ url =>
    Return (if String.prefix (LIST_DOCS_URL ++ "?") url then listing else other).

Definition ok (v : json) : response := mkResponse 200 (Return v).

(** An answer with a body that is not JSON. *)
Definition garbled (status : Z) : response := mkResponse status (Raise ValueError).

(** A backend in good health. *)
Definition healthy : log -> string -> outcome response :=
  serve (ok catalog) (ok content).

(** No backend at all: the client cannot connect. *)
Definition unreachable : log -> string -> outcome response :=
  fun _ _ => Raise RequestError.

Definition list_all_docs := list_all_docs LIST_DOCS_URL.
Definition fetch_doc_content := fetch_doc_content LIST_DOCS_URL BASE_FETCH_URL.

Definition listing_request : string :=
  "http://localhost:9002/api/list_all_docs?limit=1000&offset=0".

(** Catalogs with an entry that is not an object, after and before the
    document [abc123]. *)
Definition catalog_with_tail : json :=
  JObject [("documents",
            JArray [JObject (descriptor "def456" "Manual");
                    JObject (descriptor "abc123" "Guide");
                    JInt 5])].

Definition catalog_with_gap : json :=
  JObject [("documents",
            JArray [JObject (descriptor "def456" "Manual");
                    JInt 5;
                    JObject (descriptor "abc123" "Guide")])].

(** A content answer whose [meta] is a list. *)
Definition content_with_list_meta : json :=
  JObject [("document", JString "text");
           ("meta", JArray [JString "page"; JInt 3])].

End Sample.

(** * Properties *)

(** ** Python primitives *)

Lemma dict_mem_set (k : string) (v : json) (d : list (string * json)) :
  dict_mem k (dict_set k v d) = true.
Proof.
  unfold dict_mem.
  induction d as [|[k' v'] rest IH]; simpl.
  - now rewrite String.eqb_refl.
  - destruct (String.eqb k' k) eqn:E; simpl.
    + now rewrite String.eqb_refl.
    + now rewrite E.
Qed.

Lemma dict_get_set_other (k k' : string) (v : json) (d : list (string * json)) :
  k <> k' -> dict_get k' (dict_set k v d) = dict_get k' d.
Proof.
  intros Hk.
  induction d as [|[k0 v0] rest IH]; simpl.
  - destruct (String.eqb_spec k k'); [contradiction | reflexivity].
  - destruct (String.eqb_spec k0 k) as [->|Hne]; simpl.
    + destruct (String.eqb_spec k k'); [contradiction | reflexivity].
    + now rewrite IH.
Qed.

Lemma dict_get_set_same (k : string) (v : json) (d : list (string * json)) :
  dict_get k (dict_set k v d) = Some v.
Proof.
  induction d as [|[k' v'] rest IH]; simpl.
  - now rewrite String.eqb_refl.
  - destruct (String.eqb k' k) eqn:E; simpl.
    + now rewrite String.eqb_refl.
    + now rewrite E.
Qed.

Lemma eq_str_true (v : json) (s : string) :
  eq_str v s = true <-> v = JString s.
Proof.
  destruct v; simpl; try (split; [discriminate | intros [=]]).
  rewrite String.eqb_eq. split; [congruence | now intros [=]].
Qed.

(** [in] on a list, against a [str]: some element is that very string. *)
Lemma existsb_eq_str (k : string) (items : list json) :
  existsb (fun x => eq_str x k) items = true <-> In (JString k) items.
Proof.
  rewrite existsb_exists. split.
  - intros (x & Hin & Hx). apply eq_str_true in Hx. now subst x.
  - intros Hin. exists (JString k). split; [exact Hin|]. now apply eq_str_true.
Qed.

(** ** Formatting integers *)

Lemma int_str_bound_eq : int_str_bound = 10 ^ 4300.
Proof. vm_compute. reflexivity. Qed.

Lemma clamped_fits : 50000 < int_str_bound.
Proof. reflexivity. Qed.

Lemma str_of_int_fits (n : Z) :
  Z.abs n < int_str_bound -> str_of_int n = Return (decimal n).
Proof.
  intros H. unfold str_of_int.
  now destruct (Z.ltb_spec (Z.abs n) int_str_bound); [|lia].
Qed.

Lemma str_of_int_exceeds (n : Z) :
  int_str_bound <= Z.abs n -> str_of_int n = Raise ValueError.
Proof.
  intros H. unfold str_of_int.
  now destruct (Z.ltb_spec (Z.abs n) int_str_bound); [lia|].
Qed.

(** The numeral reads back as the integer it was printed from. *)
Lemma decimal_reads_back (n : Z) :
  option_map Z.of_int (NilZero.int_of_string (decimal n)) = Some n.
Proof.
  unfold decimal.
  rewrite NilZero.isi.
  - simpl. now rewrite DecimalZ.of_to.
  - destruct n; simpl; try discriminate.
    intros [= H]. now apply Unsigned.to_uint_nonnil in H.
  - destruct n; simpl; try discriminate.
    intros [= H]. now apply Unsigned.to_uint_nonnil in H.
Qed.

Section Properties.

Variable LIST_DOCS_URL : string.
Variable BASE_FETCH_URL : string.
Variable backend : log -> string -> outcome response.

Local Abbreviation list_docs_url := (list_docs_url LIST_DOCS_URL).
Local Abbreviation list_all_docs := (list_all_docs LIST_DOCS_URL backend).
Local Abbreviation fetch_url := (fetch_url BASE_FETCH_URL).
Local Abbreviation fetch_content := (fetch_content BASE_FETCH_URL backend).
Local Abbreviation fetch_with_catalog := (fetch_with_catalog BASE_FETCH_URL backend).
Local Abbreviation fetch_doc_content :=
  (fetch_doc_content LIST_DOCS_URL BASE_FETCH_URL backend).
Local Abbreviation catalog_request := (catalog_request LIST_DOCS_URL).
Local Abbreviation validated := (validated LIST_DOCS_URL backend).
Local Abbreviation fetched_documents := (fetched_documents LIST_DOCS_URL backend).

(** ** Clamping *)

Lemma clamp_limit_spec (limit : Z) :
  clamp_limit limit = Z.min 1000 (Z.max 1 limit).
Proof.
  unfold clamp_limit. rewrite Z.gtb_ltb.
  destruct (Z.ltb_spec limit 1);
    match goal with |- context [?a <? ?b] => destruct (Z.ltb_spec a b) end; lia.
Qed.

Lemma clamp_offset_spec (offset : Z) : clamp_offset offset = Z.max 0 offset.
Proof. unfold clamp_offset. destruct (Z.ltb_spec offset 0); lia. Qed.

Lemma clamp_limit_idem (limit : Z) :
  clamp_limit (clamp_limit limit) = clamp_limit limit.
Proof. rewrite !clamp_limit_spec. lia. Qed.

Lemma clamp_offset_idem (offset : Z) :
  clamp_offset (clamp_offset offset) = clamp_offset offset.
Proof. rewrite !clamp_offset_spec. lia. Qed.

Lemma clamp_start_spec (start : option Z) :
  clamp_start start = Z.max (match start with Some s => s | None => 0 end) 0.
Proof.
  unfold clamp_start, or_default.
  match goal with |- context [?a <? ?b] => destruct (Z.ltb_spec a b) end; lia.
Qed.

Lemma clamp_max_length_spec (max_length : option Z) :
  clamp_max_length max_length
  = Z.min 50000 (Z.max 1 (match max_length with Some m => m | None => 10000 end)).
Proof.
  unfold clamp_max_length, or_default. rewrite Z.gtb_ltb.
  destruct (Z.ltb_spec (match max_length with Some a => a | None => 10000 end) 1);
    match goal with |- context [?a <? ?b] => destruct (Z.ltb_spec a b) end; lia.
Qed.

(** ** The listing url *)

(** A clamped limit always formats; the url exists exactly when the offset
    does. *)
Lemma list_docs_url_sent (limit offset : Z) :
  offset < int_str_bound ->
  list_docs_url (clamp_limit limit) (clamp_offset offset)
  = Return (LIST_DOCS_URL ++ "?limit=" ++ decimal (clamp_limit limit)
                          ++ "&offset=" ++ decimal (clamp_offset offset)).
Proof.
  intros Ho. unfold Main.list_docs_url.
  pose proof clamped_fits as Hb.
  rewrite (str_of_int_fits (clamp_limit limit))
    by (rewrite clamp_limit_spec; lia).
  rewrite (str_of_int_fits (clamp_offset offset))
    by (rewrite clamp_offset_spec; lia).
  reflexivity.
Qed.

Lemma list_docs_url_exceeds (limit offset : Z) :
  int_str_bound <= offset ->
  list_docs_url (clamp_limit limit) (clamp_offset offset) = Raise ValueError.
Proof.
  intros Ho. unfold Main.list_docs_url.
  pose proof clamped_fits as Hb.
  rewrite (str_of_int_fits (clamp_limit limit))
    by (rewrite clamp_limit_spec; lia).
  rewrite (str_of_int_exceeds (clamp_offset offset))
    by (rewrite clamp_offset_spec; lia).
  reflexivity.
Qed.

Lemma list_docs_url_catalog :
  list_docs_url (clamp_limit 1000) (clamp_offset 0) = Return catalog_request.
Proof. reflexivity. Qed.

(** ** [list_all_docs] *)

(** The call, case by case. *)
Lemma list_all_docs_unfold (limit offset : Z) (h : log) :
  list_all_docs limit offset h
  = match list_docs_url (clamp_limit limit) (clamp_offset offset) with
    | Raise e => (Raise e, h)
    | Return url =>
        (match backend h url with
         | Raise e => Raise e
         | Return resp =>
             if negb (status_code resp =? 200) then
               Return (Dumps (list_failed (status_code resp)))
             else
               match json_body resp with
               | Raise ValueError => Return (Dumps list_undecodable)
               | Raise e => Raise e
               | Return data =>
                   match setitem data "_request"
                           (request_echo (clamp_limit limit) (clamp_offset offset))
                   with
                   | Return data' => Return (Dumps data')
                   | Raise e => Raise e
                   end
               end
         end,
         (h ++ [url])%list)
    end.
Proof.
  unfold Main.list_all_docs, iobind, lift, client_get, ret, resp_json.
  destruct (list_docs_url _ _) as [url|e]; [|reflexivity].
  destruct (backend h url) as [resp|e]; [|reflexivity].
  destruct (negb _); [reflexivity|].
  destruct (json_body resp) as [data|[]]; try reflexivity.
  destruct (setitem _ _ _); reflexivity.
Qed.

Lemma list_all_docs_log (limit offset : Z) (h : log) (url : string) :
  list_docs_url (clamp_limit limit) (clamp_offset offset) = Return url ->
  snd (list_all_docs limit offset h) = (h ++ [url])%list.
Proof. intros Hu. now rewrite list_all_docs_unfold, Hu. Qed.

Lemma list_all_docs_not_200 (limit offset : Z) (h : log) (url : string)
    (resp : response) :
  list_docs_url (clamp_limit limit) (clamp_offset offset) = Return url ->
  backend h url = Return resp ->
  status_code resp <> 200 ->
  fst (list_all_docs limit offset h) = Return (Dumps (list_failed (status_code resp))).
Proof.
  intros Hu Hr Hs. rewrite list_all_docs_unfold, Hu, Hr. simpl.
  destruct (Z.eqb_spec (status_code resp) 200); [contradiction | reflexivity].
Qed.

Lemma list_all_docs_200 (limit offset : Z) (h : log) (url : string)
    (resp : response) :
  list_docs_url (clamp_limit limit) (clamp_offset offset) = Return url ->
  backend h url = Return resp ->
  status_code resp = 200 ->
  fst (list_all_docs limit offset h)
  = match json_body resp with
    | Raise ValueError => Return (Dumps list_undecodable)
    | Raise e => Raise e
    | Return data =>
        match setitem data "_request"
                (request_echo (clamp_limit limit) (clamp_offset offset))
        with
        | Return data' => Return (Dumps data')
        | Raise e => Raise e
        end
    end.
Proof.
  intros Hu Hr Hs. rewrite list_all_docs_unfold, Hu, Hr. simpl.
  now rewrite Hs.
Qed.

(** Whatever comes back as text is the text of an object. *)
Lemma list_all_docs_returns_object (limit offset : Z) (h : log) (t : text) :
  fst (list_all_docs limit offset h) = Return t ->
  exists d, t = Dumps (JObject d).
Proof.
  rewrite list_all_docs_unfold.
  destruct (list_docs_url _ _) as [url|e]; [|discriminate]. simpl.
  destruct (backend h url) as [resp|e]; [|discriminate].
  destruct (negb _).
  - intros [= <-]. unfold list_failed. eauto.
  - destruct (json_body resp) as [data|[]]; try discriminate.
    + destruct data; simpl; try discriminate. intros [= <-]. eauto.
    + intros [= <-]. unfold list_undecodable. eauto.
Qed.

(** ** The validation step *)

Lemma fetch_doc_content_unfold (doc_uid : string) (start max_length : option Z)
    (ranges : option string) (h : log) :
  fetch_doc_content doc_uid start max_length ranges h
  = match fst (list_all_docs 1000 0 h) with
    | Return docs_raw =>
        fetch_with_catalog docs_raw doc_uid start max_length ranges
          (h ++ [catalog_request])%list
    | Raise e => (Raise e, (h ++ [catalog_request])%list)
    end.
Proof.
  unfold Main.fetch_doc_content, iobind.
  pose proof (list_all_docs_log 1000 0 h _ list_docs_url_catalog) as Hlog.
  destruct (list_all_docs 1000 0 h) as [[docs_raw|e] h']; simpl in *;
    now subst h'.
Qed.

Lemma fetch_with_catalog_absent (docs_raw : text) (doc_uid : string)
    (start max_length : option Z) (ranges : option string) (h : log) :
  document_exists doc_uid docs_raw = Return false ->
  fetch_with_catalog docs_raw doc_uid start max_length ranges h
  = (Return (Dumps (not_found doc_uid)), h).
Proof.
  intros H. unfold Main.fetch_with_catalog, iobind, lift.
  now rewrite H.
Qed.

Lemma fetch_with_catalog_present (docs_raw : text) (doc_uid : string)
    (start max_length : option Z) (ranges : option string) (h : log) :
  document_exists doc_uid docs_raw = Return true ->
  fetch_with_catalog docs_raw doc_uid start max_length ranges h
  = fetch_content doc_uid start max_length ranges h.
Proof.
  intros H. unfold Main.fetch_with_catalog, iobind, lift.
  now rewrite H.
Qed.

(** A validated call goes on to lines 168-221. *)
Lemma fetch_doc_content_validated (doc_uid : string) (start max_length : option Z)
    (ranges : option string) (h : log) :
  validated doc_uid h ->
  fetch_doc_content doc_uid start max_length ranges h
  = fetch_content doc_uid start max_length ranges (h ++ [catalog_request])%list.
Proof.
  intros (docs_raw & Hraw & Hex).
  rewrite fetch_doc_content_unfold, Hraw.
  now apply fetch_with_catalog_present.
Qed.

(** A call whose catalog lacks [doc_uid] stops after the listing request. *)
Lemma fetch_doc_content_absent (doc_uid : string) (start max_length : option Z)
    (ranges : option string) (h : log) (documents : json) :
  fetched_documents h = Return documents ->
  any_document doc_uid documents = Return false ->
  fetch_doc_content doc_uid start max_length ranges h
  = (Return (Dumps (not_found doc_uid)), (h ++ [catalog_request])%list).
Proof.
  unfold fetched_documents. intros Hdocs Hany.
  rewrite fetch_doc_content_unfold.
  destruct (fst (list_all_docs 1000 0 h)) as [docs_raw|e]; [|discriminate].
  simpl in Hdocs.
  apply fetch_with_catalog_absent.
  unfold document_exists. now rewrite Hdocs.
Qed.

(** When the check of line 163 raises, so does the call, after the listing
    request. *)
Lemma fetch_doc_content_check_raises (doc_uid : string)
    (start max_length : option Z) (ranges : option string) (h : log)
    (documents : json) (e : exn) :
  fetched_documents h = Return documents ->
  any_document doc_uid documents = Raise e ->
  fetch_doc_content doc_uid start max_length ranges h
  = (Raise e, (h ++ [catalog_request])%list).
Proof.
  unfold fetched_documents. intros Hdocs Hany.
  rewrite fetch_doc_content_unfold.
  destruct (fst (list_all_docs 1000 0 h)) as [docs_raw|]; [|discriminate].
  simpl in Hdocs.
  unfold Main.fetch_with_catalog, iobind, lift, document_exists.
  rewrite Hdocs. cbn [bind]. now rewrite Hany.
Qed.

Lemma validated_iff_documents (doc_uid : string) (h : log) :
  validated doc_uid h
  <-> exists documents,
        fetched_documents h = Return documents
        /\ any_document doc_uid documents = Return true.
Proof.
  unfold validated, fetched_documents, document_exists.
  split.
  - intros (docs_raw & Hraw & Hex). rewrite Hraw. simpl.
    destruct (catalog_documents docs_raw) as [documents|]; [|discriminate].
    now exists documents.
  - intros (documents & Hdocs & Hany).
    destruct (fst (list_all_docs 1000 0 h)) as [docs_raw|]; [|discriminate].
    exists docs_raw. split; [reflexivity|].
    simpl in Hdocs. now rewrite Hdocs.
Qed.

(** What the validation step iterates over, by the listing's answer. *)
Lemma fetched_documents_not_200 (h : log) (resp : response) :
  backend h catalog_request = Return resp ->
  status_code resp <> 200 ->
  fetched_documents h = Return (JArray []).
Proof.
  intros Hr Hs. unfold fetched_documents.
  now rewrite (list_all_docs_not_200 1000 0 h _ _ list_docs_url_catalog Hr Hs).
Qed.

Lemma fetched_documents_undecodable (h : log) (resp : response) :
  backend h catalog_request = Return resp ->
  json_body resp = Raise ValueError ->
  fetched_documents h = Return (JArray []).
Proof.
  intros Hr Hb.
  destruct (Z.eq_dec (status_code resp) 200) as [Hs|Hs].
  - unfold fetched_documents.
    now rewrite (list_all_docs_200 1000 0 h _ _ list_docs_url_catalog Hr Hs), Hb.
  - now apply (fetched_documents_not_200 h resp).
Qed.

Lemma fetched_documents_object (h : log) (resp : response)
    (body : list (string * json)) :
  backend h catalog_request = Return resp ->
  status_code resp = 200 ->
  json_body resp = Return (JObject body) ->
  fetched_documents h
  = Return (match dict_get "documents" body with
            | Some documents => documents
            | None => JArray []
            end).
Proof.
  intros Hr Hs Hb. unfold fetched_documents.
  rewrite (list_all_docs_200 1000 0 h _ _ list_docs_url_catalog Hr Hs), Hb.
  unfold catalog_documents, parse_catalog. simpl.
  rewrite dict_get_set_other by discriminate.
  now destruct (dict_get "documents" body).
Qed.

(** How a call gets validated: the listing answers 200 with an object whose
    [documents] entry holds a document with the id. *)
Lemma validated_intro (doc_uid : string) (h : log) (resp : response)
    (body : list (string * json)) (documents : json) :
  backend h catalog_request = Return resp ->
  status_code resp = 200 ->
  json_body resp = Return (JObject body) ->
  dict_get "documents" body = Some documents ->
  any_document doc_uid documents = Return true ->
  validated doc_uid h.
Proof.
  intros Hr Hs Hb Hd Hany.
  apply validated_iff_documents. exists documents. split; [|exact Hany].
  rewrite (fetched_documents_object h resp body Hr Hs Hb). now rewrite Hd.
Qed.

(** ** The content url *)

Lemma append_empty (s : string) : (s ++ "")%string = s.
Proof. induction s; simpl; congruence. Qed.

Lemma truthy_false (ranges : option string) :
  ranges = None \/ ranges = Some "" -> truthy ranges = false.
Proof. now intros [->| ->]. Qed.

Lemma present (start max_length : option Z) :
  start <> None \/ max_length <> None ->
  is_not_None start || is_not_None max_length = true.
Proof.
  destruct start, max_length; simpl; try reflexivity.
  intros [H|H]; now elim H.
Qed.

Lemma fetch_url_multi (doc_uid : string) (start max_length : option Z)
    (r : string) :
  r <> "" ->
  fetch_url doc_uid start max_length (Some r)
  = Return (BASE_FETCH_URL ++ "/" ++ doc_uid ++ "?ranges=" ++ r).
Proof. destruct r; [congruence | reflexivity]. Qed.

Lemma fetch_url_single (doc_uid : string) (start max_length : option Z)
    (ranges : option string) :
  truthy ranges = false ->
  is_not_None start || is_not_None max_length = true ->
  clamp_start start < int_str_bound ->
  fetch_url doc_uid start max_length ranges
  = Return (BASE_FETCH_URL ++ "/" ++ doc_uid
              ++ "?start=" ++ decimal (clamp_start start)
              ++ "&max_length=" ++ decimal (clamp_max_length max_length)).
Proof.
  intros Hr Hp Hs. unfold Main.fetch_url, build_params. rewrite Hr, Hp.
  pose proof clamped_fits as Hb.
  rewrite (str_of_int_fits (clamp_start start))
    by (rewrite clamp_start_spec in *; lia).
  rewrite (str_of_int_fits (clamp_max_length max_length))
    by (rewrite clamp_max_length_spec; lia).
  reflexivity.
Qed.

Lemma fetch_url_single_exceeds (doc_uid : string) (start max_length : option Z)
    (ranges : option string) :
  truthy ranges = false ->
  is_not_None start || is_not_None max_length = true ->
  int_str_bound <= clamp_start start ->
  fetch_url doc_uid start max_length ranges = Raise ValueError.
Proof.
  intros Hr Hp Hs. unfold Main.fetch_url, build_params. rewrite Hr, Hp.
  pose proof clamped_fits as Hb.
  rewrite (str_of_int_exceeds (clamp_start start))
    by (rewrite clamp_start_spec in *; lia).
  reflexivity.
Qed.

Lemma fetch_url_index (doc_uid : string) (ranges : option string) :
  truthy ranges = false ->
  fetch_url doc_uid None None ranges = Return (BASE_FETCH_URL ++ "/" ++ doc_uid).
Proof.
  intros Hr. unfold Main.fetch_url, build_params. rewrite Hr. simpl.
  now rewrite append_empty.
Qed.

(** ** The content request *)

Lemma fetch_content_unfold (doc_uid : string) (start max_length : option Z)
    (ranges : option string) (h : log) :
  fetch_content doc_uid start max_length ranges h
  = match fetch_url doc_uid start max_length ranges with
    | Raise e => (Raise e, h)
    | Return url =>
        (match backend h url with
         | Raise e => Raise e
         | Return resp =>
             if negb (status_code resp =? 200) then
               Return (Dumps (fetch_failed (status_code resp)))
             else
               match json_body resp with
               | Raise ValueError => Return (Dumps fetch_undecodable)
               | Raise e => Raise e
               | Return data =>
                   match shape_result data with
                   | Return result => Return (Dumps result)
                   | Raise e => Raise e
                   end
               end
         end,
         (h ++ [url])%list)
    end.
Proof.
  unfold Main.fetch_content, iobind, lift, client_get, ret, resp_json.
  destruct (fetch_url _ _ _ _) as [url|e]; [|reflexivity].
  destruct (backend h url) as [resp|e]; [|reflexivity].
  destruct (negb _); [reflexivity|].
  destruct (json_body resp) as [data|[]]; try reflexivity.
  destruct (shape_result _); reflexivity.
Qed.

Lemma fetch_content_not_200 (doc_uid : string) (start max_length : option Z)
    (ranges : option string) (h : log) (url : string) (resp : response) :
  fetch_url doc_uid start max_length ranges = Return url ->
  backend h url = Return resp ->
  status_code resp <> 200 ->
  fst (fetch_content doc_uid start max_length ranges h)
  = Return (Dumps (fetch_failed (status_code resp))).
Proof.
  intros Hu Hr Hs. rewrite fetch_content_unfold, Hu, Hr. simpl.
  destruct (Z.eqb_spec (status_code resp) 200); [contradiction | reflexivity].
Qed.

Lemma fetch_content_200 (doc_uid : string) (start max_length : option Z)
    (ranges : option string) (h : log) (url : string) (resp : response) :
  fetch_url doc_uid start max_length ranges = Return url ->
  backend h url = Return resp ->
  status_code resp = 200 ->
  fst (fetch_content doc_uid start max_length ranges h)
  = match json_body resp with
    | Raise ValueError => Return (Dumps fetch_undecodable)
    | Raise e => Raise e
    | Return data =>
        match shape_result data with
        | Return result => Return (Dumps result)
        | Raise e => Raise e
        end
    end.
Proof.
  intros Hu Hr Hs. rewrite fetch_content_unfold, Hu, Hr. simpl.
  now rewrite Hs.
Qed.

(** The requests of a validated call: the content request follows when its
    url could be built. *)
Lemma validated_log (doc_uid : string) (start max_length : option Z)
    (ranges : option string) (h : log) (url : string) :
  validated doc_uid h ->
  fetch_url doc_uid start max_length ranges = Return url ->
  snd (fetch_doc_content doc_uid start max_length ranges h)
  = (h ++ [catalog_request; url])%list.
Proof.
  intros Hv Hu.
  rewrite (fetch_doc_content_validated _ _ _ _ _ Hv), fetch_content_unfold, Hu.
  simpl. now rewrite <- app_assoc.
Qed.

Lemma validated_unformatted (doc_uid : string) (start max_length : option Z)
    (ranges : option string) (h : log) (e : exn) :
  validated doc_uid h ->
  fetch_url doc_uid start max_length ranges = Raise e ->
  fetch_doc_content doc_uid start max_length ranges h
  = (Raise e, (h ++ [catalog_request])%list).
Proof.
  intros Hv Hu.
  now rewrite (fetch_doc_content_validated _ _ _ _ _ Hv), fetch_content_unfold, Hu.
Qed.

(** ** Input normalisation and mode selection *)

(** C4 (within the digit limit).  For every integer [limit] and every
    [offset] below [10 ^ 4300], [list_all_docs] sends exactly one request,
    to the listing url with [limit=L&offset=O] in decimal, where [L] is 1
    for a limit below 1, 1000 for a limit above 1000 and the limit itself in
    between, and [O] is 0 for a negative offset and the offset itself
    otherwise; the call behaves in every respect as the call on the clamped
    values. *)
Theorem list_all_docs_clamp_law (limit offset : Z) (h : log) :
  offset < 10 ^ 4300 ->
  exists sent_limit sent_offset : Z,
    snd (list_all_docs limit offset h)
    = (h ++ [(LIST_DOCS_URL ++ "?limit=" ++ decimal sent_limit
                            ++ "&offset=" ++ decimal sent_offset)%string])%list
    /\ (limit < 1 -> sent_limit = 1)
    /\ (limit > 1000 -> sent_limit = 1000)
    /\ (1 <= limit <= 1000 -> sent_limit = limit)
    /\ (offset < 0 -> sent_offset = 0)
    /\ (0 <= offset -> sent_offset = offset)
    /\ list_all_docs limit offset h = list_all_docs sent_limit sent_offset h.
Proof.
  rewrite <- int_str_bound_eq. intros Ho.
  exists (clamp_limit limit), (clamp_offset offset).
  split; [apply list_all_docs_log; now apply list_docs_url_sent|].
  pose proof (clamp_limit_spec limit) as HL.
  pose proof (clamp_offset_spec offset) as HO.
  repeat split; intros; try lia.
  unfold Main.list_all_docs.
  now rewrite clamp_limit_idem, clamp_offset_idem.
Qed.

(** C5 (within the digit limit).  In Single-Range mode ([ranges] is absent
    or empty and at least one of [start], [max_length] is supplied), when
    [start] is below [10 ^ 4300], the content request of a validated call
    carries [start = max(start or 0, 0)] and [max_length] clamped into
    [1, 50000], 10000 standing in for an absent [max_length], both in
    decimal. *)
Theorem single_range_clamp_law (doc_uid : string) (start max_length : option Z)
    (ranges : option string) (h : log) :
  validated doc_uid h ->
  ranges = None \/ ranges = Some "" ->
  start <> None \/ max_length <> None ->
  match start with Some s => s | None => 0 end < 10 ^ 4300 ->
  snd (fetch_doc_content doc_uid start max_length ranges h)
  = (h ++ [(LIST_DOCS_URL ++ "?limit=1000&offset=0")%string;
           (BASE_FETCH_URL ++ "/" ++ doc_uid
              ++ "?start="
              ++ decimal (Z.max (match start with Some s => s | None => 0 end) 0)
              ++ "&max_length="
              ++ decimal
                   (Z.min 50000
                      (Z.max 1 (match max_length with Some m => m | None => 10000 end)))
           )%string])%list.
Proof.
  rewrite <- int_str_bound_eq. intros Hv Hr Hp Hs.
  rewrite <- clamp_start_spec, <- clamp_max_length_spec.
  apply (validated_log _ _ _ _ _ _ Hv).
  apply fetch_url_single.
  - now apply truthy_false.
  - now apply present.
  - pose proof clamped_fits. rewrite clamp_start_spec. lia.
Qed.

(** C1 (as the code has it).  The content request of a validated call is
    decided by the three optional parameters alone: a non-empty [ranges]
    gives the query [ranges=<raw string>] and nothing else, whatever [start]
    and [max_length] are; with [ranges] absent or empty, a supplied [start]
    or [max_length] gives [start=..&max_length=..] with the clamped values
    (for a [start] below [10 ^ 4300]); with neither, the url carries no
    query. *)
Theorem mode_selection_by_parameters (doc_uid : string)
    (start max_length : option Z) (ranges : option string) (h : log) :
  validated doc_uid h ->
  (forall r, ranges = Some r -> r <> "" ->
     snd (fetch_doc_content doc_uid start max_length ranges h)
     = (h ++ [(LIST_DOCS_URL ++ "?limit=1000&offset=0")%string;
              (BASE_FETCH_URL ++ "/" ++ doc_uid ++ "?ranges=" ++ r)%string])%list)
  /\ (ranges = None \/ ranges = Some "" ->
      start <> None \/ max_length <> None ->
      match start with Some s => s | None => 0 end < 10 ^ 4300 ->
      snd (fetch_doc_content doc_uid start max_length ranges h)
      = (h ++ [(LIST_DOCS_URL ++ "?limit=1000&offset=0")%string;
               (BASE_FETCH_URL ++ "/" ++ doc_uid
                  ++ "?start="
                  ++ decimal (Z.max (match start with Some s => s | None => 0 end) 0)
                  ++ "&max_length="
                  ++ decimal
                       (Z.min 50000
                          (Z.max 1
                             (match max_length with Some m => m | None => 10000 end)))
               )%string])%list)
  /\ (ranges = None \/ ranges = Some "" ->
      start = None -> max_length = None ->
      snd (fetch_doc_content doc_uid start max_length ranges h)
      = (h ++ [(LIST_DOCS_URL ++ "?limit=1000&offset=0")%string;
               (BASE_FETCH_URL ++ "/" ++ doc_uid)%string])%list).
Proof.
  intros Hv. split; [|split].
  - intros r -> Hr.
    apply (validated_log _ _ _ _ _ _ Hv). now apply fetch_url_multi.
  - rewrite <- int_str_bound_eq. intros Hr Hp Hs.
    rewrite <- clamp_start_spec, <- clamp_max_length_spec.
    apply (validated_log _ _ _ _ _ _ Hv).
    apply fetch_url_single.
    + now apply truthy_false.
    + now apply present.
    + pose proof clamped_fits. rewrite clamp_start_spec. lia.
  - intros Hr -> ->.
    apply (validated_log _ _ _ _ _ _ Hv).
    apply fetch_url_index. now apply truthy_false.
Qed.

(** ** Unknown documents *)

Lemma has_id_true (doc_uid : string) (d : document) :
  has_id doc_uid d = true <-> dict_get "id" d = Some (JString doc_uid).
Proof.
  unfold has_id. destruct (dict_get "id" d) as [id|].
  - rewrite eq_str_true. split; congruence.
  - split; discriminate.
Qed.

Lemma any_id_eq_objects (doc_uid : string) (catalog : list document) :
  any_id_eq doc_uid (map JObject catalog) = Return (existsb (has_id doc_uid) catalog).
Proof.
  induction catalog as [|d rest IH]; simpl; [reflexivity|].
  unfold has_id at 1.
  destruct (dict_get "id" d) as [id|]; simpl.
  - destruct (eq_str id doc_uid); [reflexivity | exact IH].
  - exact IH.
Qed.

(** A list of documents, none of which has the id. *)
Lemma any_id_eq_absent (doc_uid : string) (catalog : list document) :
  (forall d, In d catalog -> dict_get "id" d <> Some (JString doc_uid)) ->
  any_id_eq doc_uid (map JObject catalog) = Return false.
Proof.
  intros Hno. rewrite any_id_eq_objects. f_equal.
  destruct (existsb (has_id doc_uid) catalog) eqn:E; [|reflexivity].
  apply existsb_exists in E as (d & Hin & Hid).
  apply has_id_true in Hid. now elim (Hno d Hin).
Qed.

(** C3.  When the catalog the validation step fetches is a list of
    documents none of which has an id equal to [doc_uid], the call returns
    exactly the "not found" object and its only request is the listing
    request: the content endpoint is not contacted, whatever [start],
    [max_length] and [ranges] are. *)
Theorem unknown_document_short_circuits (doc_uid : string)
    (start max_length : option Z) (ranges : option string) (h : log)
    (catalog : list document) :
  fetched_documents h = Return (JArray (map JObject catalog)) ->
  (forall d, In d catalog -> dict_get "id" d <> Some (JString doc_uid)) ->
  fetch_doc_content doc_uid start max_length ranges h
  = (Return (Dumps (JObject
       [("error", JString ("Document '" ++ doc_uid ++ "' not found"))])),
     (h ++ [(LIST_DOCS_URL ++ "?limit=1000&offset=0")%string])%list).
Proof.
  intros Hdocs Hno.
  apply (fetch_doc_content_absent _ _ _ _ _ _ Hdocs).
  unfold any_document. cbn [iter bind]. now apply any_id_eq_absent.
Qed.

(** C9.  When the listing request of the validation step is answered with
    a status other than 200, the call returns the "not found" object for
    [doc_uid], after that one request: the outage is reported neither with
    the listing's nor with the content endpoint's HTTP-failure object. *)
Theorem listing_outage_reads_as_not_found (doc_uid : string)
    (start max_length : option Z) (ranges : option string) (h : log)
    (resp : response) :
  backend h (LIST_DOCS_URL ++ "?limit=1000&offset=0")%string = Return resp ->
  status_code resp <> 200 ->
  fetch_doc_content doc_uid start max_length ranges h
  = (Return (Dumps (JObject
       [("error", JString ("Document '" ++ doc_uid ++ "' not found"))])),
     (h ++ [(LIST_DOCS_URL ++ "?limit=1000&offset=0")%string])%list)
  /\ forall code,
      fst (fetch_doc_content doc_uid start max_length ranges h)
        <> Return (Dumps (list_failed code))
      /\ fst (fetch_doc_content doc_uid start max_length ranges h)
        <> Return (Dumps (fetch_failed code)).
Proof.
  intros Hr Hs.
  assert (fetch_doc_content doc_uid start max_length ranges h
          = (Return (Dumps (not_found doc_uid)),
             (h ++ [catalog_request])%list)) as Hrun.
  { apply (fetch_doc_content_absent _ _ _ _ _ _
             (fetched_documents_not_200 h resp Hr Hs)).
    reflexivity. }
  split; [exact Hrun|].
  intros code. rewrite Hrun. split; discriminate.
Qed.

(** C10.  Validation looks at the page [limit=1000&offset=0] only.  Let the
    backend hold a catalog of documents and answer that request with its
    first 1000 entries.  If a document with id [doc_uid] sits at position
    1000 or later and none of the first 1000 has that id, the call returns
    "not found" after the listing request alone. *)
Theorem validation_sees_first_page_only (doc_uid : string)
    (start max_length : option Z) (ranges : option string) (h : log)
    (resp : response) (catalog : list document) (body : list (string * json))
    (d : document) :
  backend h (LIST_DOCS_URL ++ "?limit=1000&offset=0")%string = Return resp ->
  status_code resp = 200 ->
  json_body resp = Return (JObject body) ->
  dict_get "documents" body = Some (JArray (map JObject (firstn 1000 catalog))) ->
  In d (skipn 1000 catalog) ->
  dict_get "id" d = Some (JString doc_uid) ->
  (forall d', In d' (firstn 1000 catalog) ->
              dict_get "id" d' <> Some (JString doc_uid)) ->
  fetch_doc_content doc_uid start max_length ranges h
  = (Return (Dumps (JObject
       [("error", JString ("Document '" ++ doc_uid ++ "' not found"))])),
     (h ++ [(LIST_DOCS_URL ++ "?limit=1000&offset=0")%string])%list).
Proof.
  intros Hr Hs Hb Hdocs _ _ Hfirst.
  pose proof (fetched_documents_object h resp body Hr Hs Hb) as Hf.
  rewrite Hdocs in Hf.
  apply (fetch_doc_content_absent _ _ _ _ _ _ Hf).
  unfold any_document. cbn [iter bind]. now apply any_id_eq_absent.
Qed.

(** ** HTTP failures *)

(** The convenience keys are added behind [document]. *)
Lemma surface_keeps_head (key : string) (meta : json) (k0 : string) (v0 : json)
    (rest r : list (string * json)) :
  String.eqb k0 key = false ->
  surface key meta ((k0, v0) :: rest) = Return r ->
  exists rest', r = (k0, v0) :: rest'.
Proof.
  intros Hk. unfold surface.
  destruct (contains meta key) as [[|]|]; simpl; try discriminate.
  - destruct (get meta key JNull); simpl; try discriminate.
    rewrite Hk. intros [= <-]. eauto.
  - intros [= <-]. eauto.
Qed.

Lemma shape_result_head (data result : json) :
  shape_result data = Return result ->
  exists document rest, result = JObject (("document", document) :: rest).
Proof.
  unfold shape_result.
  destruct (get data "document" (JObject [])) as [document|]; simpl; try discriminate.
  destruct (get data "meta" (JObject [])) as [meta|]; simpl; try discriminate.
  destruct (surface "has_more" meta _) as [r1|] eqn:E1; simpl; try discriminate.
  apply surface_keeps_head in E1 as [rest1 ->]; [|reflexivity].
  destruct (surface "next_start" meta _) as [r2|] eqn:E2; simpl; try discriminate.
  apply surface_keeps_head in E2 as [rest2 ->]; [|reflexivity].
  intros [= <-]. eauto.
Qed.

(** C6 (as the code has it).  [list_all_docs] returns the object
    [{"error": "list_all_docs failed", "status": code}] exactly when its
    request is answered with a status other than 200, [code] being that
    status; and a validated [fetch_doc_content] returns
    [{"error": "fetch_doc_content failed", "status": code}] exactly when the
    content endpoint answers its request with a status other than 200. *)
Theorem http_failure_iff_not_200 :
  (forall (limit offset : Z) (h : log) (code : Z),
      fst (list_all_docs limit offset h) = Return (Dumps (list_failed code))
      <-> exists url resp,
            list_docs_url (clamp_limit limit) (clamp_offset offset) = Return url
            /\ backend h url = Return resp
            /\ status_code resp = code
            /\ code <> 200)
  /\ (forall (doc_uid : string) (start max_length : option Z)
             (ranges : option string) (h : log) (code : Z),
      validated doc_uid h ->
      (fst (fetch_doc_content doc_uid start max_length ranges h)
       = Return (Dumps (fetch_failed code))
       <-> exists url resp,
             fetch_url doc_uid start max_length ranges = Return url
             /\ backend (h ++ [(LIST_DOCS_URL ++ "?limit=1000&offset=0")%string])%list
                        url
                = Return resp
             /\ status_code resp = code
             /\ code <> 200)).
Proof.
  split.
  - intros limit offset h code. split.
    + rewrite list_all_docs_unfold.
      destruct (list_docs_url _ _) as [url|e]; [|discriminate]. simpl.
      destruct (backend h url) as [resp|e] eqn:Hr; [|discriminate].
      destruct (Z.eqb_spec (status_code resp) 200) as [Hs|Hs]; simpl.
      * destruct (json_body resp) as [data|[]]; try discriminate.
        destruct data; simpl; try discriminate.
        intros [= Heq]. exfalso.
        pose proof (dict_mem_set "_request"
          (request_echo (clamp_limit limit) (clamp_offset offset)) entries) as Hm.
        rewrite Heq in Hm. discriminate.
      * intros [= Hc]. exists url, resp. repeat split; congruence.
    + intros (url & resp & Hu & Hr & Hc & Hne).
      rewrite (list_all_docs_not_200 _ _ _ _ _ Hu Hr) by congruence.
      now rewrite Hc.
  - intros doc_uid start max_length ranges h code Hv.
    rewrite (fetch_doc_content_validated _ _ _ _ _ Hv).
    change (LIST_DOCS_URL ++ "?limit=1000&offset=0")%string with catalog_request.
    split.
    + rewrite fetch_content_unfold.
      destruct (fetch_url _ _ _ _) as [url|e]; [|discriminate]. simpl.
      destruct (backend _ url) as [resp|e] eqn:Hr; [|discriminate].
      destruct (Z.eqb_spec (status_code resp) 200) as [Hs|Hs]; simpl.
      * destruct (json_body resp) as [data|[]]; try discriminate.
        destruct (shape_result data) as [result|] eqn:E; [|discriminate].
        apply shape_result_head in E as (document & rest & ->). discriminate.
      * intros [= Hc]. exists url, resp. repeat split; congruence.
    + intros (url & resp & Hu & Hr & Hc & Hne).
      rewrite (fetch_content_not_200 _ _ _ _ _ _ _ Hu Hr) by congruence.
      now rewrite Hc.
Qed.

(** ** The shape of a successful answer *)

Lemma surface_object (key : string) (meta : list (string * json))
    (result : list (string * json)) :
  surface key (JObject meta) result
  = Return (match dict_get key meta with
            | Some v => dict_set key v result
            | None => result
            end).
Proof.
  unfold surface, contains, dict_mem, get.
  now destruct (dict_get key meta).
Qed.

(** C8 (for a [meta] that is an object).  When the content endpoint
    answers a validated call with status 200 and a body that decodes to an
    object whose [meta] entry, if there is one, is an object, the call
    returns the object with the keys [document] and [meta] (an empty object
    standing in for an absent one), followed by [has_more] exactly when
    [meta] has that key and by [next_start] exactly when [meta] has that
    key, each with the value [meta] gives it. *)
Theorem successful_fetch_shape (doc_uid : string)
    (start max_length : option Z) (ranges : option string) (h : log)
    (url : string) (resp : response) (body meta : list (string * json)) :
  validated doc_uid h ->
  fetch_url doc_uid start max_length ranges = Return url ->
  backend (h ++ [(LIST_DOCS_URL ++ "?limit=1000&offset=0")%string])%list url
  = Return resp ->
  status_code resp = 200 ->
  json_body resp = Return (JObject body) ->
  match dict_get "meta" body with Some m => m | None => JObject [] end
  = JObject meta ->
  fst (fetch_doc_content doc_uid start max_length ranges h)
  = Return (Dumps (JObject
      ([("document",
         match dict_get "document" body with Some d => d | None => JObject [] end);
        ("meta", JObject meta)]
       ++ match dict_get "has_more" meta with
          | Some v => [("has_more", v)]
          | None => []
          end
       ++ match dict_get "next_start" meta with
          | Some v => [("next_start", v)]
          | None => []
          end)%list)).
Proof.
  intros Hv Hu Hr Hs Hb Hmeta.
  change (LIST_DOCS_URL ++ "?limit=1000&offset=0")%string with catalog_request in Hr.
  rewrite (fetch_doc_content_validated _ _ _ _ _ Hv).
  rewrite (fetch_content_200 _ _ _ _ _ _ _ Hu Hr Hs), Hb.
  unfold shape_result, get.
  assert (forall k, match dict_get k body with
                    | Some x => Return x
                    | None => Return (JObject [])
                    end
                    = Return (match dict_get k body with
                              | Some x => x
                              | None => JObject []
                              end)) as Hget
    by (intros k; now destruct (dict_get k body)).
  rewrite !Hget, Hmeta. cbn [bind].
  rewrite surface_object. cbn [bind].
  rewrite surface_object. cbn [bind].
  destruct (dict_get "has_more" meta), (dict_get "next_start" meta); reflexivity.
Qed.

End Properties.

(** * Further properties of the two tools *)

Section Further.

Variable LIST_DOCS_URL : string.
Variable BASE_FETCH_URL : string.
Variable backend : log -> string -> outcome response.

Local Abbreviation list_docs_url := (list_docs_url LIST_DOCS_URL).
Local Abbreviation list_all_docs := (list_all_docs LIST_DOCS_URL backend).
Local Abbreviation fetch_url := (fetch_url BASE_FETCH_URL).
Local Abbreviation fetch_content := (fetch_content BASE_FETCH_URL backend).
Local Abbreviation fetch_with_catalog := (fetch_with_catalog BASE_FETCH_URL backend).
Local Abbreviation fetch_doc_content :=
  (fetch_doc_content LIST_DOCS_URL BASE_FETCH_URL backend).
Local Abbreviation catalog_request := (catalog_request LIST_DOCS_URL).
Local Abbreviation validated := (validated LIST_DOCS_URL backend).
Local Abbreviation fetched_documents := (fetched_documents LIST_DOCS_URL backend).

(** ** [list_all_docs]: the answer on success, and the digit limit *)

(** X1.  On status 200 with a body that decodes to an object,
    [list_all_docs] returns that object with the entry [_request] set to
    [{limit, offset}] of the clamped values, the very values its request
    carried; every other key reads as in the backend's body, and a
    [_request] the backend sent itself is overwritten. *)
Theorem list_all_docs_echoes_request (limit offset : Z) (h : log)
    (resp : response) (body : list (string * json)) :
  let sent_limit := Z.min 1000 (Z.max 1 limit) in
  let sent_offset := Z.max 0 offset in
  let url := (LIST_DOCS_URL ++ "?limit=" ++ decimal sent_limit
                            ++ "&offset=" ++ decimal sent_offset)%string in
  offset < 10 ^ 4300 ->
  backend h url = Return resp ->
  status_code resp = 200 ->
  json_body resp = Return (JObject body) ->
  exists answer : list (string * json),
    list_all_docs limit offset h = (Return (Dumps (JObject answer)), (h ++ [url])%list)
    /\ dict_get "_request" answer
       = Some (JObject [("limit", JInt sent_limit); ("offset", JInt sent_offset)])
    /\ forall k, k <> "_request" -> dict_get k answer = dict_get k body.
Proof.
  intros sent_limit sent_offset url.
  rewrite <- int_str_bound_eq. intros Ho.
  pose proof (list_docs_url_sent LIST_DOCS_URL limit offset Ho) as Hu.
  rewrite clamp_limit_spec, clamp_offset_spec in Hu at 2.
  fold sent_limit sent_offset url in Hu.
  intros Hr Hs Hb.
  exists (dict_set "_request"
            (request_echo (clamp_limit limit) (clamp_offset offset)) body).
  split; [|split].
  - rewrite (surjective_pairing (list_all_docs limit offset h)).
    rewrite (list_all_docs_log _ _ _ _ _ _ Hu).
    now rewrite (list_all_docs_200 _ _ _ _ _ _ _ Hu Hr Hs), Hb.
  - rewrite dict_get_set_same. unfold request_echo, sent_limit, sent_offset.
    now rewrite clamp_limit_spec, clamp_offset_spec.
  - intros k Hk. now apply dict_get_set_other.
Qed.

(** X2.  An [offset] of more than 4300 digits (from [10 ^ 4300] on) makes
    [list_all_docs] raise [ValueError] at the f-string of line 72, before
    any request is sent; whatever [limit] is, it is clamped to at most 1000
    and never has that effect. *)
Theorem oversized_offset_raises_before_request (limit offset : Z) (h : log) :
  10 ^ 4300 <= offset ->
  list_all_docs limit offset h = (Raise ValueError, h).
Proof.
  rewrite <- int_str_bound_eq. intros Ho.
  rewrite list_all_docs_unfold.
  now rewrite (list_docs_url_exceeds LIST_DOCS_URL limit offset Ho).
Qed.

(** ** The catalog text inside [fetch_doc_content] *)

(** X3.  Whatever text [list_all_docs] returns decodes, and decodes to an
    object, so the two statements inside the [try] of lines 158-162 succeed
    on it: in a call of [fetch_doc_content] the [except] branch is never
    taken, and [documents] is the [documents] entry of that object or the
    default list. *)
Theorem listing_text_always_parses (limit offset : Z) (h : log) (docs_raw : text) :
  fst (list_all_docs limit offset h) = Return docs_raw ->
  exists answer : list (string * json),
    loads docs_raw = Return (JObject answer)
    /\ parse_catalog docs_raw
       = Return (match dict_get "documents" answer with
                 | Some documents => documents
                 | None => JArray []
                 end).
Proof.
  intros Hret.
  apply list_all_docs_returns_object in Hret as [answer ->].
  exists answer. split; [reflexivity|].
  unfold parse_catalog. simpl.
  now destruct (dict_get "documents" answer).
Qed.

(** ** The requests of [fetch_doc_content] *)

(** X4.  In Single-Range mode a [start] of more than 4300 digits makes a
    validated call raise [ValueError] at the f-string of line 186: the
    listing request has been sent, the content request never is. *)
Theorem oversized_start_raises_after_listing (doc_uid : string)
    (start : Z) (max_length : option Z) (ranges : option string) (h : log) :
  validated doc_uid h ->
  ranges = None \/ ranges = Some "" ->
  10 ^ 4300 <= start ->
  fetch_doc_content doc_uid (Some start) max_length ranges h
  = (Raise ValueError,
     (h ++ [(LIST_DOCS_URL ++ "?limit=1000&offset=0")%string])%list).
Proof.
  rewrite <- int_str_bound_eq. intros Hv Hr Hs.
  apply (validated_unformatted _ _ _ _ _ _ _ _ _ Hv).
  apply fetch_url_single_exceeds.
  - now apply truthy_false.
  - reflexivity.
  - pose proof clamped_fits. rewrite clamp_start_spec. lia.
Qed.

(** X5.  A call of [fetch_doc_content] hands one or two urls to the client
    and leaves the earlier log as it was: always the listing request with
    [limit=1000&offset=0] first; the content request after it when
    validation found the document and the content url could be built; and
    nothing after it otherwise. *)
Theorem fetch_doc_content_requests (doc_uid : string)
    (start max_length : option Z) (ranges : option string) (h : log) :
  (validated doc_uid h ->
   forall url, fetch_url doc_uid start max_length ranges = Return url ->
   snd (fetch_doc_content doc_uid start max_length ranges h)
   = (h ++ [(LIST_DOCS_URL ++ "?limit=1000&offset=0")%string; url])%list)
  /\ (validated doc_uid h ->
      forall e, fetch_url doc_uid start max_length ranges = Raise e ->
      snd (fetch_doc_content doc_uid start max_length ranges h)
      = (h ++ [(LIST_DOCS_URL ++ "?limit=1000&offset=0")%string])%list)
  /\ (~ validated doc_uid h ->
      snd (fetch_doc_content doc_uid start max_length ranges h)
      = (h ++ [(LIST_DOCS_URL ++ "?limit=1000&offset=0")%string])%list).
Proof.
  change (LIST_DOCS_URL ++ "?limit=1000&offset=0")%string with catalog_request.
  split; [|split].
  - intros Hv url Hu. now apply validated_log.
  - intros Hv e Hu.
    now rewrite (validated_unformatted _ _ _ _ _ _ _ _ _ Hv Hu).
  - intros Hnot.
    rewrite fetch_doc_content_unfold.
    destruct (fst (list_all_docs 1000 0 h)) as [docs_raw|e] eqn:El; [|reflexivity].
    unfold Main.fetch_with_catalog, iobind, lift.
    destruct (document_exists doc_uid docs_raw) as [[|]|e] eqn:Ex; try reflexivity.
    elim Hnot. now exists docs_raw.
Qed.

(** ** Which documents validation finds *)

(** X6.  Over a catalog of documents, validation succeeds exactly when
    some document's [id] is the string [doc_uid]: a document without an
    [id], or with an [id] that is not a string (a number, say), is never
    matched. *)
Theorem validated_iff_listed (doc_uid : string) (h : log)
    (catalog : list document) :
  fetched_documents h = Return (JArray (map JObject catalog)) ->
  (validated doc_uid h
   <-> exists d, In d catalog /\ dict_get "id" d = Some (JString doc_uid)).
Proof.
  intros Hdocs.
  rewrite validated_iff_documents. split.
  - intros (documents & Hd & Hany).
    rewrite Hdocs in Hd. injection Hd as <-.
    unfold any_document in Hany. cbn [iter bind] in Hany.
    rewrite any_id_eq_objects in Hany.
    injection Hany as Hany. apply existsb_exists in Hany as (d & Hin & Hid).
    exists d. split; [exact Hin|]. now apply has_id_true.
  - intros (d & Hin & Hid).
    exists (JArray (map JObject catalog)). split; [exact Hdocs|].
    unfold any_document. cbn [iter bind].
    rewrite any_id_eq_objects. f_equal.
    apply existsb_exists. exists d. split; [exact Hin|]. now apply has_id_true.
Qed.

Lemma any_id_eq_app (doc_uid : string) (before : list document) (rest : list json) :
  (forall d, In d before -> dict_get "id" d <> Some (JString doc_uid)) ->
  any_id_eq doc_uid (map JObject before ++ rest)%list = any_id_eq doc_uid rest.
Proof.
  induction before as [|d before IH]; intros Hno; simpl; [reflexivity|].
  assert (has_id doc_uid d = false) as Hd.
  { destruct (has_id doc_uid d) eqn:E; [|reflexivity].
    apply has_id_true in E. elim (Hno d); [now left | exact E]. }
  unfold has_id in Hd.
  destruct (dict_get "id" d) as [id|]; simpl.
  - rewrite Hd. apply IH. intros d' Hin. apply Hno. now right.
  - apply IH. intros d' Hin. apply Hno. now right.
Qed.

(** X7.  The check stops at the first document whose [id] is [doc_uid]:
    when the entries before it are documents, the call goes on to the
    content endpoint whatever the later entries are, objects or not. *)
Theorem first_match_ends_validation (doc_uid : string)
    (start max_length : option Z) (ranges : option string) (h : log)
    (before : list document) (d : document) (rest : list json) :
  fetched_documents h
  = Return (JArray (map JObject before ++ JObject d :: rest)%list) ->
  dict_get "id" d = Some (JString doc_uid) ->
  fetch_doc_content doc_uid start max_length ranges h
  = fetch_content doc_uid start max_length ranges
      (h ++ [(LIST_DOCS_URL ++ "?limit=1000&offset=0")%string])%list.
Proof.
  intros Hdocs Hid.
  apply fetch_doc_content_validated, validated_iff_documents.
  eexists. split; [exact Hdocs|].
  unfold any_document. cbn [iter bind].
  assert (any_id_eq doc_uid (JObject d :: rest) = Return true) as Hhit.
  { simpl. rewrite Hid. simpl. now rewrite String.eqb_refl. }
  clear Hdocs.
  induction before as [|b before IH]; simpl; [exact Hhit|].
  destruct (dict_get "id" b) as [id|]; simpl.
  - now destruct (eq_str id doc_uid).
  - exact IH.
Qed.

(** X8.  An entry that is not an object, met before any document with the
    id, makes the call raise [AttributeError] after the listing request,
    even if a document with the id comes later in the catalog. *)
Theorem malformed_entry_before_match_raises (doc_uid : string)
    (start max_length : option Z) (ranges : option string) (h : log)
    (before : list document) (x : json) (rest : list json) :
  fetched_documents h
  = Return (JArray (map JObject before ++ x :: rest)%list) ->
  (forall d, In d before -> dict_get "id" d <> Some (JString doc_uid)) ->
  (forall d, x <> JObject d) ->
  fetch_doc_content doc_uid start max_length ranges h
  = (Raise AttributeError,
     (h ++ [(LIST_DOCS_URL ++ "?limit=1000&offset=0")%string])%list).
Proof.
  intros Hdocs Hno Hx.
  apply (fetch_doc_content_check_raises _ _ _ _ _ _ _ _ _ _ Hdocs).
  unfold any_document. cbn [iter bind].
  rewrite (any_id_eq_app _ _ _ Hno). simpl.
  destruct x; try reflexivity. now elim (Hx entries).
Qed.

(** X9.  A catalog answer without a [documents] key counts as an empty
    catalog: the call returns "not found" after the listing request. *)
Theorem missing_documents_key_is_not_found (doc_uid : string)
    (start max_length : option Z) (ranges : option string) (h : log)
    (resp : response) (body : list (string * json)) :
  backend h (LIST_DOCS_URL ++ "?limit=1000&offset=0")%string = Return resp ->
  status_code resp = 200 ->
  json_body resp = Return (JObject body) ->
  dict_get "documents" body = None ->
  fetch_doc_content doc_uid start max_length ranges h
  = (Return (Dumps (JObject
       [("error", JString ("Document '" ++ doc_uid ++ "' not found"))])),
     (h ++ [(LIST_DOCS_URL ++ "?limit=1000&offset=0")%string])%list).
Proof.
  intros Hr Hs Hb Hnone.
  pose proof (fetched_documents_object _ _ h resp body Hr Hs Hb) as Hf.
  rewrite Hnone in Hf.
  now apply (fetch_doc_content_absent _ _ _ _ _ _ _ _ _ Hf).
Qed.

(** X12.  A listing answer whose body cannot be decoded ([resp.json()]
    raises [ValueError]) reads as an empty catalog: the call returns "not
    found" after the listing request and the decode failure is not
    surfaced. *)
Theorem undecodable_listing_is_not_found (doc_uid : string)
    (start max_length : option Z) (ranges : option string) (h : log)
    (resp : response) :
  backend h (LIST_DOCS_URL ++ "?limit=1000&offset=0")%string = Return resp ->
  json_body resp = Raise ValueError ->
  fetch_doc_content doc_uid start max_length ranges h
  = (Return (Dumps (JObject
       [("error", JString ("Document '" ++ doc_uid ++ "' not found"))])),
     (h ++ [(LIST_DOCS_URL ++ "?limit=1000&offset=0")%string])%list).
Proof.
  intros Hr Hb.
  now apply (fetch_doc_content_absent _ _ _ _ _ _ _ _ _
               (fetched_documents_undecodable _ _ h resp Hr Hb)).
Qed.

(** ** The content endpoint's answer *)

(** X10.  When the content endpoint answers a validated call with status
    200 and a body that cannot be decoded, the call returns exactly
    [{"error": "Failed to decode JSON from fetch_doc_content"}], after its
    two requests. *)
Theorem undecodable_content_body (doc_uid : string)
    (start max_length : option Z) (ranges : option string) (h : log)
    (url : string) (resp : response) :
  validated doc_uid h ->
  fetch_url doc_uid start max_length ranges = Return url ->
  backend (h ++ [(LIST_DOCS_URL ++ "?limit=1000&offset=0")%string])%list url
  = Return resp ->
  status_code resp = 200 ->
  json_body resp = Raise ValueError ->
  fetch_doc_content doc_uid start max_length ranges h
  = (Return (Dumps (JObject
       [("error", JString "Failed to decode JSON from fetch_doc_content")])),
     (h ++ [(LIST_DOCS_URL ++ "?limit=1000&offset=0")%string; url])%list).
Proof.
  intros Hv Hu Hr Hs Hb.
  change (LIST_DOCS_URL ++ "?limit=1000&offset=0")%string with catalog_request in *.
  rewrite (surjective_pairing (fetch_doc_content doc_uid start max_length ranges h)).
  rewrite (validated_log _ _ _ _ _ _ _ _ _ Hv Hu).
  rewrite (fetch_doc_content_validated _ _ _ _ _ _ _ _ Hv).
  now rewrite (fetch_content_200 _ _ _ _ _ _ _ _ _ Hu Hr Hs), Hb.
Qed.

(** X11.  [meta] that is a list.  [in] then tests for an element equal to
    the key: with neither ["has_more"] nor ["next_start"] among its
    elements the call returns [{document, meta}] and no convenience key;
    with either of them present the call raises [AttributeError], a list
    having no [.get]. *)
Theorem list_meta_shape (doc_uid : string)
    (start max_length : option Z) (ranges : option string) (h : log)
    (url : string) (resp : response)
    (body : list (string * json)) (items : list json) :
  validated doc_uid h ->
  fetch_url doc_uid start max_length ranges = Return url ->
  backend (h ++ [(LIST_DOCS_URL ++ "?limit=1000&offset=0")%string])%list url
  = Return resp ->
  status_code resp = 200 ->
  json_body resp = Return (JObject body) ->
  dict_get "meta" body = Some (JArray items) ->
  (~ In (JString "has_more") items -> ~ In (JString "next_start") items ->
   fst (fetch_doc_content doc_uid start max_length ranges h)
   = Return (Dumps (JObject
       [("document",
         match dict_get "document" body with Some d => d | None => JObject [] end);
        ("meta", JArray items)])))
  /\ (In (JString "has_more") items \/ In (JString "next_start") items ->
      fst (fetch_doc_content doc_uid start max_length ranges h)
      = Raise AttributeError).
Proof.
  intros Hv Hu Hr Hs Hb Hmeta.
  change (LIST_DOCS_URL ++ "?limit=1000&offset=0")%string with catalog_request in *.
  rewrite (fetch_doc_content_validated _ _ _ _ _ _ _ _ Hv).
  rewrite (fetch_content_200 _ _ _ _ _ _ _ _ _ Hu Hr Hs), Hb.
  unfold shape_result, get. rewrite Hmeta.
  assert (forall k, existsb (fun x => eq_str x k) items = false
                    <-> ~ In (JString k) items) as Hex.
  { intros k. rewrite <- existsb_eq_str.
    destruct (existsb _ items); split; congruence. }
  destruct (dict_get "document" body) as [document|]; cbn [bind];
    unfold surface, contains;
    (split;
     [ intros H1 H2; apply Hex in H1; apply Hex in H2;
       cbn [bind]; rewrite H1; cbn [bind]; rewrite H2; reflexivity
     | intros [H|H]; apply existsb_eq_str in H; cbn [bind];
       [ rewrite H; reflexivity
       | destruct (existsb (fun x => eq_str x "has_more") items);
         [reflexivity | cbn [bind]; rewrite H; reflexivity] ] ]).
Qed.

End Further.

(** * Concrete runs *)

Module Runs.

Import Sample.

Lemma listed_abc123 (other : response) :
  validated LIST_DOCS_URL (serve (ok catalog) other) "abc123" [].
Proof.
  apply (validated_intro LIST_DOCS_URL (serve (ok catalog) other) "abc123" []
           (ok catalog) [("documents", JArray (map JObject documents))]
           (JArray (map JObject documents)));
    reflexivity.
Qed.

Lemma small_negative : -5 < 10 ^ 4300.
Proof. rewrite <- int_str_bound_eq. reflexivity. Qed.

(** Scenario E: the listing endpoint answers 500. *)
Example scenario_E :
  fst (list_all_docs (serve (garbled 500) (ok content)) 100 0 [])
  = Return (Dumps (JObject [("error", JString "list_all_docs failed");
                            ("status", JInt 500)])).
Proof. reflexivity. Qed.

(** No backend: the client's exception leaves both tools. *)
Example connection_failure :
  list_all_docs unreachable 100 0 []
  = (Raise RequestError,
     ["http://localhost:9002/api/list_all_docs?limit=100&offset=0"])
  /\ fetch_doc_content unreachable "abc123" None None None []
     = (Raise RequestError,
        ["http://localhost:9002/api/list_all_docs?limit=1000&offset=0"]).
Proof. split; reflexivity. Qed.

(** C4, an instance (Scenario A): [list_all_docs(limit=0, offset=-5)] sends
    [limit=1&offset=0] and is the call [list_all_docs(1, 0)]. *)
Lemma list_all_docs_clamp_law_witness :
  snd (list_all_docs healthy 0 (-5) [])
  = ["http://localhost:9002/api/list_all_docs?limit=1&offset=0"]
  /\ list_all_docs healthy 0 (-5) [] = list_all_docs healthy 1 0 [].
Proof.
  destruct (list_all_docs_clamp_law LIST_DOCS_URL healthy 0 (-5) [] small_negative)
    as (sent_limit & sent_offset & Hlog & Hlow & _ & _ & Hneg & _ & Hsame).
  rewrite (Hlow eq_refl) in *. rewrite (Hneg eq_refl) in *.
  split; [exact Hlog | exact Hsame].
Defined.

(** C4, where the claim as stated fails: an offset of 4301 digits is turned
    away with [ValueError] and nothing is sent. *)
Lemma offset_beyond_digit_limit_is_rejected :
  list_all_docs healthy 100 (10 ^ 4300) [] = (Raise ValueError, []).
Proof. rewrite <- int_str_bound_eq. reflexivity. Qed.

(** C1, two instances: a non-empty [ranges] wins over a supplied [start];
    without [ranges], a supplied [start] selects Single-Range. *)
Lemma mode_selection_by_parameters_witness :
  snd (fetch_doc_content healthy "abc123" (Some 7) None (Some "0-120,400-550") [])
  = ["http://localhost:9002/api/list_all_docs?limit=1000&offset=0";
     "http://localhost:9002/api/fetch_doc_content/abc123?ranges=0-120,400-550"]
  /\ snd (fetch_doc_content healthy "abc123" (Some (-5)) None None [])
     = ["http://localhost:9002/api/list_all_docs?limit=1000&offset=0";
        "http://localhost:9002/api/fetch_doc_content/abc123?start=0&max_length=10000"].
Proof.
  split.
  - refine (proj1 (mode_selection_by_parameters LIST_DOCS_URL BASE_FETCH_URL
                     healthy "abc123" (Some 7) None (Some "0-120,400-550") []
                     (listed_abc123 (ok content)))
                  "0-120,400-550" eq_refl _).
    discriminate.
  - refine (proj1 (proj2 (mode_selection_by_parameters LIST_DOCS_URL BASE_FETCH_URL
                            healthy "abc123" (Some (-5)) None None []
                            (listed_abc123 (ok content))))
                  (or_introl eq_refl) _ small_negative).
    left. discriminate.
Defined.

(** C1, where the claim as stated fails: [ranges] is supplied, as the empty
    string, together with [start]; the request is a Single-Range request and
    not the Multi-Range request [ranges=]. *)
Lemma empty_ranges_is_not_multi_range :
  snd (fetch_doc_content healthy "abc123" (Some 5) None (Some "") [])
  = ["http://localhost:9002/api/list_all_docs?limit=1000&offset=0";
     "http://localhost:9002/api/fetch_doc_content/abc123?start=5&max_length=10000"]
  /\ snd (fetch_doc_content healthy "abc123" (Some 5) None (Some "") [])
     <> ["http://localhost:9002/api/list_all_docs?limit=1000&offset=0";
         "http://localhost:9002/api/fetch_doc_content/abc123?ranges="].
Proof. split; [reflexivity | discriminate]. Qed.

(** C5, an instance: a negative [start] and an absent [max_length]. *)
Lemma single_range_clamp_law_witness :
  snd (fetch_doc_content healthy "abc123" (Some (-5)) None None [])
  = ["http://localhost:9002/api/list_all_docs?limit=1000&offset=0";
     "http://localhost:9002/api/fetch_doc_content/abc123?start=0&max_length=10000"].
Proof.
  refine (single_range_clamp_law LIST_DOCS_URL BASE_FETCH_URL healthy
            "abc123" (Some (-5)) None None [] (listed_abc123 (ok content))
            (or_introl eq_refl) _ small_negative).
  left. discriminate.
Defined.

(** C5, where the claim as stated fails: a [start] of 4301 digits is never
    sent; the call raises [ValueError] after the listing request. *)
Lemma start_beyond_digit_limit_is_not_sent :
  fetch_doc_content healthy "abc123" (Some (10 ^ 4300)) (Some 500) None []
  = (Raise ValueError,
     ["http://localhost:9002/api/list_all_docs?limit=1000&offset=0"]).
Proof. rewrite <- int_str_bound_eq. reflexivity. Qed.

(** C3, an instance (Scenario B): no document of the catalog is called
    [zzz]. *)
Lemma unknown_document_short_circuits_witness :
  fetch_doc_content healthy "zzz" (Some 0) (Some 500) (Some "0-10") []
  = (Return (Dumps (JObject [("error", JString "Document 'zzz' not found")])),
     ["http://localhost:9002/api/list_all_docs?limit=1000&offset=0"]).
Proof.
  refine (unknown_document_short_circuits LIST_DOCS_URL BASE_FETCH_URL healthy
            "zzz" (Some 0) (Some 500) (Some "0-10") [] documents _ _).
  - reflexivity.
  - intros d [<-|[<-|[]]]; discriminate.
Defined.

(** C9, an instance: the listing endpoint answers 500. *)
Lemma listing_outage_reads_as_not_found_witness :
  fetch_doc_content (serve (garbled 500) (ok content)) "abc123" None None None []
  = (Return (Dumps (JObject [("error", JString "Document 'abc123' not found")])),
     ["http://localhost:9002/api/list_all_docs?limit=1000&offset=0"]).
Proof.
  refine (proj1 (listing_outage_reads_as_not_found LIST_DOCS_URL BASE_FETCH_URL
                   (serve (garbled 500) (ok content))
                   "abc123" None None None [] (garbled 500) _ _)).
  - reflexivity.
  - simpl. discriminate.
Defined.

(** C10, an instance: the document [late] is entry 1000 of a catalog of
    1001, and the backend serves the first 1000. *)
Lemma validation_sees_first_page_only_witness :
  fetch_doc_content (serve (ok first_page) (ok content)) "late" None None None []
  = (Return (Dumps (JObject [("error", JString "Document 'late' not found")])),
     ["http://localhost:9002/api/list_all_docs?limit=1000&offset=0"]).
Proof.
  refine (validation_sees_first_page_only LIST_DOCS_URL BASE_FETCH_URL
            (serve (ok first_page) (ok content)) "late" None None None []
            (ok first_page) long_catalog
            [("documents", JArray (map JObject (firstn 1000 long_catalog)))]
            (descriptor "late" "Late") _ _ _ _ _ _ _).
  - reflexivity.
  - reflexivity.
  - reflexivity.
  - reflexivity.
  - vm_compute. left. reflexivity.
  - reflexivity.
  - intros d' Hin.
    change (firstn 1000 long_catalog)
      with (repeat (descriptor "filler" "Filler") 1000) in Hin.
    apply repeat_spec in Hin. subst d'. discriminate.
Defined.

(** C6, where the claim as stated fails: 201 and 204 are success statuses,
    and both tools answer them with their HTTP-failure object. *)
Lemma success_status_other_than_200_is_failure :
  fst (list_all_docs (serve (mkResponse 201 (Return catalog)) (ok content)) 100 0 [])
  = Return (Dumps (JObject [("error", JString "list_all_docs failed");
                            ("status", JInt 201)]))
  /\ fst (fetch_doc_content (serve (ok catalog) (garbled 204))
            "abc123" None None None [])
     = Return (Dumps (JObject [("error", JString "fetch_doc_content failed");
                               ("status", JInt 204)])).
Proof. split; reflexivity. Qed.

(** C6, two instances: a 503 from the content endpoint is reported with its
    code, and a 200 from the listing endpoint never is. *)
Lemma http_failure_iff_not_200_witness :
  fst (fetch_doc_content (serve (ok catalog) (garbled 503))
         "abc123" None None None [])
  = Return (Dumps (fetch_failed 503))
  /\ fst (list_all_docs healthy 100 0 []) <> Return (Dumps (list_failed 200)).
Proof.
  pose proof (http_failure_iff_not_200 LIST_DOCS_URL BASE_FETCH_URL) as H.
  split.
  - apply (proj2 (H (serve (ok catalog) (garbled 503))))
      with (1 := listed_abc123 (garbled 503)).
    exists "http://localhost:9002/api/fetch_doc_content/abc123", (garbled 503).
    repeat split; try reflexivity. discriminate.
  - intros Heq.
    apply (proj1 (H healthy)) in Heq.
    now destruct Heq as (url & resp & _ & _ & _ & Hne).
Defined.

(** C8, where the claim as stated fails: status 200 and a body that decodes
    to an object, whose [meta] is a number; the call raises at
    ["has_more" in meta] and returns nothing. *)
Lemma non_object_meta_raises :
  fetch_doc_content (serve (ok catalog) (ok (JObject [("meta", JInt 5)])))
    "abc123" None None None []
  = (Raise TypeError,
     ["http://localhost:9002/api/list_all_docs?limit=1000&offset=0";
      "http://localhost:9002/api/fetch_doc_content/abc123"]).
Proof. reflexivity. Qed.

(** C8, an instance: [meta] carries both convenience keys. *)
Lemma successful_fetch_shape_witness :
  fst (fetch_doc_content healthy "abc123" (Some 0) (Some 500) None [])
  = Return (Dumps (JObject
      [("document", JObject [("text", JString "hello")]);
       ("meta", JObject [("has_more", JBool true); ("next_start", JInt 500)]);
       ("has_more", JBool true);
       ("next_start", JInt 500)])).
Proof.
  refine (successful_fetch_shape LIST_DOCS_URL BASE_FETCH_URL healthy
            "abc123" (Some 0) (Some 500) None []
            "http://localhost:9002/api/fetch_doc_content/abc123?start=0&max_length=500"
            (ok content)
            [("document", JObject [("text", JString "hello")]);
             ("meta", JObject [("has_more", JBool true); ("next_start", JInt 500)])]
            [("has_more", JBool true); ("next_start", JInt 500)]
            (listed_abc123 (ok content)) _ _ _ _ _);
    reflexivity.
Defined.

(** C2, where the code lets an exception out.  A listing body that decodes
    to a list makes [list_all_docs] raise at [data["_request"] = ...], and
    [fetch_doc_content], which calls it outside its [try], raises with it;
    a catalog entry that is not an object raises at [d.get("id")]; a content
    body that is not an object raises at [data.get("document", {})]. *)
Theorem non_object_json_escapes :
  list_all_docs (serve (ok (JArray [])) (ok content)) 100 0 []
  = (Raise TypeError,
     ["http://localhost:9002/api/list_all_docs?limit=100&offset=0"])
  /\ fetch_doc_content (serve (ok (JArray [])) (ok content)) "abc123" None None None []
     = (Raise TypeError,
        ["http://localhost:9002/api/list_all_docs?limit=1000&offset=0"])
  /\ fetch_doc_content
       (serve (ok (JObject [("documents", JArray [JInt 5])])) (ok content))
       "abc123" None None None []
     = (Raise AttributeError,
        ["http://localhost:9002/api/list_all_docs?limit=1000&offset=0"])
  /\ fetch_doc_content (serve (ok catalog) (ok (JArray []))) "abc123" None None None []
     = (Raise AttributeError,
        ["http://localhost:9002/api/list_all_docs?limit=1000&offset=0";
         "http://localhost:9002/api/fetch_doc_content/abc123"]).
Proof. repeat split; reflexivity. Qed.

(** C7, where the code does not fail closed.  The decoding of the catalog
    fails outside the [try] of lines 158-162, and the failure leaves the
    call instead of reading as "not found": [resp.json()] raising
    [RecursionError] on a deeply nested body (line 81, reached through line
    157); a catalog that decodes to a string (line 88); a [documents] that
    is [null] (line 163). *)
Theorem catalog_failures_escape_validation :
  fetch_doc_content (serve (mkResponse 200 (Raise RecursionError)) (ok content))
    "abc123" None None None []
  = (Raise RecursionError,
     ["http://localhost:9002/api/list_all_docs?limit=1000&offset=0"])
  /\ fetch_doc_content (serve (ok (JString "maintenance")) (ok content))
       "abc123" None None None []
     = (Raise TypeError,
        ["http://localhost:9002/api/list_all_docs?limit=1000&offset=0"])
  /\ fetch_doc_content (serve (ok (JObject [("documents", JNull)])) (ok content))
       "abc123" None None None []
     = (Raise TypeError,
        ["http://localhost:9002/api/list_all_docs?limit=1000&offset=0"]).
Proof. repeat split; reflexivity. Qed.

End Runs.

(** * Concrete runs of the further properties *)

Module MoreRuns.

Import Sample.

Lemma small_offset : -5 < 10 ^ 4300.
Proof. rewrite <- int_str_bound_eq. reflexivity. Qed.

Lemma beyond_limit : 10 ^ 4300 <= 10 ^ 4300 + 7.
Proof. rewrite <- int_str_bound_eq. lia. Qed.

(** X1, an instance: [list_all_docs(limit=0, offset=-5)] on a healthy
    backend. *)
Lemma list_all_docs_echoes_request_witness :
  exists answer : list (string * json),
    list_all_docs healthy 0 (-5) []
    = (Return (Dumps (JObject answer)),
       ["http://localhost:9002/api/list_all_docs?limit=1&offset=0"])
    /\ dict_get "_request" answer
       = Some (JObject [("limit", JInt 1); ("offset", JInt 0)])
    /\ forall k, k <> "_request" ->
                 dict_get k answer
                 = dict_get k [("documents", JArray (map JObject documents))].
Proof.
  refine (list_all_docs_echoes_request LIST_DOCS_URL healthy 0 (-5) []
            (ok catalog) [("documents", JArray (map JObject documents))]
            small_offset _ _ _);
    reflexivity.
Defined.

(** X2, an instance: an offset of 4301 digits, after two earlier
    requests. *)
Lemma oversized_offset_raises_before_request_witness :
  list_all_docs healthy 5 (10 ^ 4300 + 7) ["earlier"; "requests"]
  = (Raise ValueError, ["earlier"; "requests"]).
Proof.
  exact (oversized_offset_raises_before_request LIST_DOCS_URL healthy
           5 (10 ^ 4300 + 7) ["earlier"; "requests"] beyond_limit).
Defined.

(** X3, an instance: the text returned on a 500 from the listing. *)
Lemma listing_text_always_parses_witness :
  exists answer : list (string * json),
    loads (Dumps (list_failed 500)) = Return (JObject answer)
    /\ parse_catalog (Dumps (list_failed 500))
       = Return (match dict_get "documents" answer with
                 | Some documents => documents
                 | None => JArray []
                 end).
Proof.
  refine (listing_text_always_parses LIST_DOCS_URL
            (serve (garbled 500) (ok content)) 1000 0 []
            (Dumps (list_failed 500)) _).
  reflexivity.
Defined.

(** X4, an instance: a start of 4301 digits with [ranges] empty. *)
Lemma oversized_start_raises_after_listing_witness :
  fetch_doc_content healthy "abc123" (Some (10 ^ 4300 + 7)) None (Some "") []
  = (Raise ValueError,
     ["http://localhost:9002/api/list_all_docs?limit=1000&offset=0"]).
Proof.
  exact (oversized_start_raises_after_listing LIST_DOCS_URL BASE_FETCH_URL healthy
           "abc123" (10 ^ 4300 + 7) None (Some "") []
           (Runs.listed_abc123 (ok content)) (or_intror eq_refl) beyond_limit).
Defined.

(** X5, an instance: a validated call sends both requests. *)
Lemma fetch_doc_content_requests_witness :
  snd (fetch_doc_content healthy "abc123" None None None [])
  = ["http://localhost:9002/api/list_all_docs?limit=1000&offset=0";
     "http://localhost:9002/api/fetch_doc_content/abc123"].
Proof.
  refine (proj1 (fetch_doc_content_requests LIST_DOCS_URL BASE_FETCH_URL healthy
                   "abc123" None None None [])
                (Runs.listed_abc123 (ok content))
                "http://localhost:9002/api/fetch_doc_content/abc123" _).
  reflexivity.
Defined.

(** X6, an instance: the two-document catalog. *)
Lemma validated_iff_listed_witness :
  validated LIST_DOCS_URL healthy "abc123" []
  <-> exists d, In d documents /\ dict_get "id" d = Some (JString "abc123").
Proof.
  refine (validated_iff_listed LIST_DOCS_URL healthy "abc123" [] documents _).
  reflexivity.
Defined.

(** X7, an instance: the number after [abc123] is never looked at. *)
Lemma first_match_ends_validation_witness :
  fetch_doc_content (serve (ok catalog_with_tail) (garbled 404))
    "abc123" None None None []
  = (Return (Dumps (JObject [("error", JString "fetch_doc_content failed");
                             ("status", JInt 404)])),
     ["http://localhost:9002/api/list_all_docs?limit=1000&offset=0";
      "http://localhost:9002/api/fetch_doc_content/abc123"]).
Proof.
  refine (first_match_ends_validation LIST_DOCS_URL BASE_FETCH_URL
            (serve (ok catalog_with_tail) (garbled 404))
            "abc123" None None None []
            [descriptor "def456" "Manual"] (descriptor "abc123" "Guide")
            [JInt 5] _ _);
    reflexivity.
Defined.

(** X8, an instance: the number before [abc123] stops the call. *)
Lemma malformed_entry_before_match_raises_witness :
  fetch_doc_content (serve (ok catalog_with_gap) (ok content))
    "abc123" None None None []
  = (Raise AttributeError,
     ["http://localhost:9002/api/list_all_docs?limit=1000&offset=0"]).
Proof.
  refine (malformed_entry_before_match_raises LIST_DOCS_URL BASE_FETCH_URL
            (serve (ok catalog_with_gap) (ok content))
            "abc123" None None None []
            [descriptor "def456" "Manual"] (JInt 5)
            [JObject (descriptor "abc123" "Guide")] _ _ _).
  - reflexivity.
  - intros d [<-|[]]. discriminate.
  - intros d. discriminate.
Defined.

(** X9, an instance: the listing answers with an object that has no
    [documents]. *)
Lemma missing_documents_key_is_not_found_witness :
  fetch_doc_content (serve (ok (JObject [("items", JArray [])])) (ok content))
    "abc123" None None None []
  = (Return (Dumps (JObject [("error", JString "Document 'abc123' not found")])),
     ["http://localhost:9002/api/list_all_docs?limit=1000&offset=0"]).
Proof.
  refine (missing_documents_key_is_not_found LIST_DOCS_URL BASE_FETCH_URL
            (serve (ok (JObject [("items", JArray [])])) (ok content))
            "abc123" None None None []
            (ok (JObject [("items", JArray [])])) [("items", JArray [])] _ _ _ _);
    reflexivity.
Defined.

(** X12, an instance: the listing answers 200 with a body that is not
    JSON. *)
Lemma undecodable_listing_is_not_found_witness :
  fetch_doc_content (serve (garbled 200) (ok content)) "abc123" None None None []
  = (Return (Dumps (JObject [("error", JString "Document 'abc123' not found")])),
     ["http://localhost:9002/api/list_all_docs?limit=1000&offset=0"]).
Proof.
  refine (undecodable_listing_is_not_found LIST_DOCS_URL BASE_FETCH_URL
            (serve (garbled 200) (ok content))
            "abc123" None None None [] (garbled 200) _ _);
    reflexivity.
Defined.

(** X10, an instance: the content endpoint answers 200 with a body that is
    not JSON. *)
Lemma undecodable_content_body_witness :
  fetch_doc_content (serve (ok catalog) (garbled 200))
    "abc123" (Some 0) None None []
  = (Return (Dumps (JObject
       [("error", JString "Failed to decode JSON from fetch_doc_content")])),
     ["http://localhost:9002/api/list_all_docs?limit=1000&offset=0";
      "http://localhost:9002/api/fetch_doc_content/abc123?start=0&max_length=10000"]).
Proof.
  refine (undecodable_content_body LIST_DOCS_URL BASE_FETCH_URL
            (serve (ok catalog) (garbled 200))
            "abc123" (Some 0) None None []
            "http://localhost:9002/api/fetch_doc_content/abc123?start=0&max_length=10000"
            (garbled 200)
            (Runs.listed_abc123 (garbled 200)) _ _ _ _);
    reflexivity.
Defined.

(** X11, an instance: [meta] is the list [["page", 3]]. *)
Lemma list_meta_shape_witness :
  fst (fetch_doc_content (serve (ok catalog) (ok content_with_list_meta))
         "abc123" None None None [])
  = Return (Dumps (JObject
      [("document", JString "text");
       ("meta", JArray [JString "page"; JInt 3])])).
Proof.
  refine (proj1 (list_meta_shape LIST_DOCS_URL BASE_FETCH_URL
                   (serve (ok catalog) (ok content_with_list_meta))
                   "abc123" None None None []
                   "http://localhost:9002/api/fetch_doc_content/abc123"
                   (ok content_with_list_meta)
                   [("document", JString "text");
                    ("meta", JArray [JString "page"; JInt 3])]
                   [JString "page"; JInt 3]
                   (Runs.listed_abc123 (ok content_with_list_meta)) _ _ _ _ _) _ _);
    try reflexivity;
    intros [H|[H|[]]]; discriminate.
Defined.

End MoreRuns.
